(** * Working-hours response-time engine: the code, embedded and checked

    A shallow embedding of
    - the BigQuery UDF [calculate_working_seconds_sql] (three revisions:
      [working_hours_sql_udf_simple.sql], its Asia/Kolkata revision and the
      earlier revision without the closed-day test),
    - the schedule resolvers [getWorkingHoursConfig] and
      [getAllWorkingHoursConfig] of the two JavaScript services,
    - the response pairing of [calculateResponseTimes] and of the
      [events_with_lag] / [response_events] CTEs,
    - the aggregates [follow_up_count] and [average_response_time] of the
      merge queries, and their MERGE,
    followed by the properties of the specification that were checked
    against them. *)

From Stdlib Require Import QArith Qround.
From stdpp Require Import base numbers list gmap strings pretty sorting.

Open Scope Z_scope.

(** ** BigQuery instants and times of day *)

Module Time.

(** A [TIMESTAMP] is an absolute instant with microsecond precision:
    the number of microseconds since 1970-01-01T00:00:00Z. *)
Definition timestamp := Z.

(** A [TIME] is a time of day: microseconds since midnight,
    in [0, MICROS_PER_DAY). *)
Definition time := Z.

Definition MICROS_PER_SECOND : Z := 1000000.
Definition MICROS_PER_DAY : Z := 86400 * MICROS_PER_SECOND.

(** The zones the SQL text names.  Neither has daylight saving, so a zone
    is a constant offset from UTC. *)
Inductive zone := UTC | Asia_Kolkata.

Definition utc_offset (z : zone) : Z :=
  match z with
  | UTC => 0
  | Asia_Kolkata => (5 * 3600 + 30 * 60) * MICROS_PER_SECOND
  end.

(** [TIME(h, m, s)] *)
Definition TIME_of (h m s : Z) : time := ((h * 60 + m) * 60 + s) * MICROS_PER_SECOND.

(** [DATE(ts, zone)]: the civil date, as a day number since 1970-01-01. *)
Definition DATE (z : zone) (ts : timestamp) : Z :=
  (ts + utc_offset z) `div` MICROS_PER_DAY.

(** [TIME(ts, zone)]: the civil time of day. *)
Definition TIME (z : zone) (ts : timestamp) : time :=
  (ts + utc_offset z) `mod` MICROS_PER_DAY.

(** [EXTRACT(DAYOFWEEK FROM ts AT TIME ZONE zone)]: 1 = Sunday .. 7 =
    Saturday.  Day 0 (1970-01-01) was a Thursday, i.e. 5. *)
Definition DAYOFWEEK (z : zone) (ts : timestamp) : Z :=
  (DATE z ts + 4) `mod` 7 + 1.

(** [TIMESTAMP_DIFF(e, s, SECOND)]: the whole seconds of [e - s],
    truncated toward zero. *)
Definition TIMESTAMP_DIFF_SECOND (e s : timestamp) : Z :=
  (e - s) `quot` MICROS_PER_SECOND.

(** The instant [days] days after the epoch at [h:m:s] UTC. *)
Definition at_utc (days h m s : Z) : timestamp :=
  days * MICROS_PER_DAY + TIME_of h m s.

End Time.
Import Time.

(** ** The UDF [calculate_working_seconds_sql] *)

(** The fourteen [TIME] arguments; [None] is SQL [NULL]. *)
Record working_hours_args := {
  monday_start : option time;    monday_end : option time;
  tuesday_start : option time;   tuesday_end : option time;
  wednesday_start : option time; wednesday_end : option time;
  thursday_start : option time;  thursday_end : option time;
  friday_start : option time;    friday_end : option time;
  saturday_start : option time;  saturday_end : option time;
  sunday_start : option time;    sunday_end : option time
}.

(** The three revisions of the function kept in the repository. *)
Inductive udf_revision :=
| UdfUtc          (* working_hours_sql_udf_simple.sql: UTC, closed-day test *)
| UdfKolkata      (* Asia/Kolkata revision, closed-day test *)
| UdfNoClosedTest (* first revision: UTC, no closed-day test *).

Definition udf_zone (v : udf_revision) : zone :=
  match v with
  | UdfKolkata => Asia_Kolkata
  | UdfUtc | UdfNoClosedTest => UTC
  end.

Definition tests_closed_day (v : udf_revision) : bool :=
  match v with
  | UdfUtc | UdfKolkata => true
  | UdfNoClosedTest => false
  end.

(** The condition of one [WHEN] of the weekday chain:
    [EXTRACT(DAYOFWEEK ..) = k AND d_start IS NOT NULL AND d_end IS NOT NULL
     AND NOT (d_start = TIME(0,0,0) AND d_end = TIME(0,0,0))],
    the last conjunct only in the revisions that have it.  When the
    condition holds, the branch works with the two times. *)
Definition when_day (v : udf_revision) (dow k : Z) (d_start d_end : option time)
  : option (time * time) :=
  if dow =? k then
    match d_start, d_end with
    | Some s, Some e =>
        if tests_closed_day v && ((s =? TIME_of 0 0 0) && (e =? TIME_of 0 0 0))
        then None
        else Some (s, e)
    | _, _ => None
    end
  else None.

(** The [THEN] of every weekday branch. *)
Definition within_window (z : zone) (start_timestamp end_timestamp : timestamp)
    (w : time * time) : Z :=
  if (TIME z start_timestamp <? w.1) || (TIME z end_timestamp >? w.2)
  then 0   (* Response starts before or ends after working hours *)
  else TIMESTAMP_DIFF_SECOND end_timestamp start_timestamp.

(** The weekday chain: the first [WHEN] whose condition holds is taken. *)
Definition weekday_branch (v : udf_revision) (dow : Z) (a : working_hours_args)
  : option (time * time) :=
  match when_day v dow 2 (monday_start a) (monday_end a) with
  | Some w => Some w
  | None =>
  match when_day v dow 3 (tuesday_start a) (tuesday_end a) with
  | Some w => Some w
  | None =>
  match when_day v dow 4 (wednesday_start a) (wednesday_end a) with
  | Some w => Some w
  | None =>
  match when_day v dow 5 (thursday_start a) (thursday_end a) with
  | Some w => Some w
  | None =>
  match when_day v dow 6 (friday_start a) (friday_end a) with
  | Some w => Some w
  | None =>
  match when_day v dow 7 (saturday_start a) (saturday_end a) with
  | Some w => Some w
  | None => when_day v dow 1 (sunday_start a) (sunday_end a)
  end end end end end end.

(** The function body, for two instants that are not [NULL].  The result
    is a [FLOAT64] holding a whole number of seconds (the integer [0] or
    the [CAST] of an [INT64] far below 2^53), so it is kept as that
    integer. *)
Definition calculate_working_seconds_sql (v : udf_revision)
    (start_timestamp end_timestamp : timestamp) (a : working_hours_args) : Z :=
  if start_timestamp >=? end_timestamp then 0
  else
    if DATE (udf_zone v) start_timestamp =? DATE (udf_zone v) end_timestamp then
      match weekday_branch v (DAYOFWEEK (udf_zone v) start_timestamp) a with
      | Some w => within_window (udf_zone v) start_timestamp end_timestamp w
      | None => 0
      end
    else
      0 (* Different days - for now, return 0 *).

(** Schedules used by the scenarios. *)
Definition same_hours_every (mon tue wed thu fri sat sun : option (time * time))
  : working_hours_args :=
  {| monday_start := fst <$> mon;    monday_end := snd <$> mon;
     tuesday_start := fst <$> tue;   tuesday_end := snd <$> tue;
     wednesday_start := fst <$> wed; wednesday_end := snd <$> wed;
     thursday_start := fst <$> thu;  thursday_end := snd <$> thu;
     friday_start := fst <$> fri;    friday_end := snd <$> fri;
     saturday_start := fst <$> sat;  saturday_end := snd <$> sat;
     sunday_start := fst <$> sun;    sunday_end := snd <$> sun |}.

Definition nine_to_six : option (time * time) := Some (TIME_of 9 0 0, TIME_of 18 0 0).
Definition midnight_to_midnight : option (time * time) := Some (TIME_of 0 0 0, TIME_of 0 0 0).

(** Monday to Friday 09:00-18:00; Saturday and Sunday closed, written the
    way the merge queries pass a closed day, as 00:00:00-00:00:00. *)
Definition weekdays_nine_to_six : working_hours_args :=
  same_hours_every nine_to_six nine_to_six nine_to_six nine_to_six nine_to_six
                   midnight_to_midnight midnight_to_midnight.

(** Every weekday 00:00:00-00:00:00. *)
Definition all_closed : working_hours_args :=
  same_hours_every midnight_to_midnight midnight_to_midnight midnight_to_midnight
                   midnight_to_midnight midnight_to_midnight midnight_to_midnight
                   midnight_to_midnight.

(** 2025-01-04 is day 20092 (a Saturday), 2025-01-06 day 20094 (a Monday). *)
Definition sat_2025_01_04 : Z := 20092.
Definition mon_2025_01_06 : Z := 20094.
Definition tue_2025_01_07 : Z := 20095.

Definition sat_10_00 : timestamp := at_utc sat_2025_01_04 10 0 0.
Definition mon_10_00 : timestamp := at_utc mon_2025_01_06 10 0 0.
Definition mon_10_05 : timestamp := at_utc mon_2025_01_06 10 5 0.
Definition mon_17_00 : timestamp := at_utc mon_2025_01_06 17 0 0.
Definition mon_18_30 : timestamp := at_utc mon_2025_01_06 18 30 0.
Definition mon_20_00 : timestamp := at_utc mon_2025_01_06 20 0 0.
Definition mon_20_01 : timestamp := at_utc mon_2025_01_06 20 1 0.
Definition tue_10_00 : timestamp := at_utc tue_2025_01_07 10 0 0.


(** ** Schedule resolution (bigQueryService.js, analyticsService.js) *)

(** A row of the MySQL table [working_hours], or one of the literal default
    entries.  [None] is a property that is absent or [NULL]. *)
Module WorkingHours.
Record row := {
  type : option string;
  type_id : option Z;
  week_day : string;
  start_time : string;
  end_time : string;
  timezone_offset : option Z
}.
End WorkingHours.

(** A row of [callyzer_user_mappings]; an id is a number or [NULL]. *)
Module UserMapping.
Record row := {
  user_id : option Z;
  team_id : option Z;
  org_id : option Z
}.
End UserMapping.

(** What [getWorkingHoursConfig] returns. *)
Module Config.
Record t := {
  source : string;
  workingHours : list WorkingHours.row
}.
End Config.

(** What [getAllWorkingHoursConfig] pushes for one user. *)
Module Resolved.
Record t := {
  user_id : option Z;
  org_id : option Z;
  team_id : option Z;
  type : string;
  working_hours : list WorkingHours.row
}.
End Resolved.

(** [parseInt] at an id.  An id reaches the resolvers as a number, as the
    decimal string of one (the route parameters), or as [null]; it is kept
    as the number it denotes, [None] for [null].  [parseInt] gives that
    number, or [NaN] ([None]). *)
Definition parseInt (id : option Z) : option Z := id.

(** [x === y] between a [type_id] and the result of [parseInt]: [null] and
    [NaN] are strictly equal to no number, and not to each other. *)
Definition strict_equal (x y : option Z) : Prop :=
  match x, y with
  | Some a, Some b => a = b
  | _, _ => False
  end.

#[global] Instance strict_equal_dec (x y : option Z) : Decision (strict_equal x y).
Proof. destruct x, y; simpl; apply _. Defined.

(** The predicate of the three [filter] calls:
    [wh.type === scope && wh.type_id === parseInt(id)]. *)
Definition scoped (scope : string) (id : option Z) (wh : WorkingHours.row) : Prop :=
  WorkingHours.type wh = Some scope ∧ strict_equal (WorkingHours.type_id wh) (parseInt id).

#[global] Instance scoped_dec scope id wh : Decision (scoped scope id wh).
Proof. unfold scoped. apply _. Defined.

Definition week : list string :=
  ["monday"; "tuesday"; "wednesday"; "thursday"; "friday"; "saturday"; "sunday"].

(** The literal default entries: 09:00:00-18:00:00 on each day.
    analyticsService.js adds [timezone_offset: 0] to each of them. *)
Definition default_entry (tz : option Z) (d : string) : WorkingHours.row :=
  {| WorkingHours.type := None; WorkingHours.type_id := None;
     WorkingHours.week_day := d;
     WorkingHours.start_time := "09:00:00"; WorkingHours.end_time := "18:00:00";
     WorkingHours.timezone_offset := tz |}.

(** The body of the [for (const userMapping of userMappings)] loop of
    [getAllWorkingHoursConfig], the same text in both services up to the
    default entries. *)
Definition resolve_user (defaults allWorkingHours : list WorkingHours.row)
    (userMapping : UserMapping.row) : Resolved.t :=
  let user_id := UserMapping.user_id userMapping in
  let org_id := UserMapping.org_id userMapping in
  let team_id := UserMapping.team_id userMapping in
  let selfHours := filter (scoped "self" user_id) allWorkingHours in
  let '(type, workingHoursConfig) :=
    if decide (0 < length selfHours)%nat then ("self", selfHours)
    else
      let teamHours := filter (scoped "team" team_id) allWorkingHours in
      if decide (0 < length teamHours)%nat then ("team", teamHours)
      else
        let orgHours := filter (scoped "org" org_id) allWorkingHours in
        if decide (0 < length orgHours)%nat then ("org", orgHours)
        else ("default", defaults) in
  {| Resolved.user_id := user_id; Resolved.org_id := org_id;
     Resolved.team_id := team_id; Resolved.type := type;
     Resolved.working_hours := workingHoursConfig |}.

Module BigQueryService.

Definition default_working_hours : list WorkingHours.row := default_entry None <$> week.

(** [getWorkingHoursConfig(userId, orgId)], given the two tables it reads.
    [userMapping] is fetched and never used. *)
Definition getWorkingHoursConfig
    (workingHours : list WorkingHours.row) (userMapping : list UserMapping.row)
    (userId orgId : option Z) : Config.t :=
  let selfHours := filter (scoped "self" userId) workingHours in
  let teamHours := filter (scoped "team" userId) workingHours in
  let orgHours := filter (scoped "org" orgId) workingHours in
  if decide (0 < length selfHours)%nat then
    {| Config.source := "self"; Config.workingHours := selfHours |}
  else if decide (0 < length teamHours)%nat then
    {| Config.source := "team"; Config.workingHours := teamHours |}
  else if decide (0 < length orgHours)%nat then
    {| Config.source := "org"; Config.workingHours := orgHours |}
  else
    {| Config.source := "default"; Config.workingHours := default_working_hours |}.

(** bigQueryService.js: every row of the user mapping gets an entry. *)
Definition getAllWorkingHoursConfig
    (userMappings : list UserMapping.row) (allWorkingHours : list WorkingHours.row)
  : list Resolved.t :=
  foldl (λ results userMapping,
           results ++ [resolve_user default_working_hours allWorkingHours userMapping])
        [] userMappings.

End BigQueryService.

Module AnalyticsService.

Definition default_working_hours : list WorkingHours.row := default_entry (Some 0) <$> week.

(** One turn of the loop of analyticsService.js, on the pair of [results]
    and the set [processedUsers]: a user seen before is skipped. *)
Definition getAll_step (allWorkingHours : list WorkingHours.row)
    (st : list Resolved.t * gset (option Z)) (userMapping : UserMapping.row)
  : list Resolved.t * gset (option Z) :=
  let '(results, processedUsers) := st in
  if decide (UserMapping.user_id userMapping ∈ processedUsers) then st
  else (results ++ [resolve_user default_working_hours allWorkingHours userMapping],
        processedUsers ∪ {[ UserMapping.user_id userMapping ]}).

Definition getAllWorkingHoursConfig
    (userMappings : list UserMapping.row) (allWorkingHours : list WorkingHours.row)
  : list Resolved.t :=
  (foldl (getAll_step allWorkingHours) ([], ∅) userMappings).1.

End AnalyticsService.

(** The user mappings the loop of analyticsService.js does not skip: the
    first one of each [user_id], given the ids [seen] so far. *)
Fixpoint first_per_user (seen : gset (option Z)) (userMappings : list UserMapping.row)
  : list UserMapping.row :=
  match userMappings with
  | [] => []
  | userMapping :: rest =>
      if decide (UserMapping.user_id userMapping ∈ seen) then first_per_user seen rest
      else userMapping
           :: first_per_user (seen ∪ {[ UserMapping.user_id userMapping ]}) rest
  end.

(** Scenario S5: user 14024 of team 9 in organisation 2. *)
Definition user_14024 : UserMapping.row :=
  {| UserMapping.user_id := Some 14024; UserMapping.team_id := Some 9;
     UserMapping.org_id := Some 2 |}.

Definition entry (scope : string) (id : Z) (day first last : string) : WorkingHours.row :=
  {| WorkingHours.type := Some scope; WorkingHours.type_id := Some id;
     WorkingHours.week_day := day;
     WorkingHours.start_time := first; WorkingHours.end_time := last;
     WorkingHours.timezone_offset := Some 0 |}.

Definition self_monday : WorkingHours.row := entry "self" 14024 "monday" "10:00:00" "12:00:00".
Definition team_monday : WorkingHours.row := entry "team" 9 "monday" "09:00:00" "18:00:00".
Definition org_monday : WorkingHours.row := entry "org" 2 "monday" "00:00:00" "23:59:00".

(** ** Message events *)

Inductive direction := INCOMING | OUTGOING.

#[global] Instance direction_eq_dec : EqDecision direction.
Proof. solve_decision. Defined.

(** [Array.prototype.sort] with the comparator [a.key - b.key], and the
    order of a window [ORDER BY key]: ascending, and stable (SQL leaves
    the order of equal keys open; the stable order is one it can give). *)
Fixpoint insert_by {A} (key : A → Z) (x : A) (l : list A) : list A :=
  match l with
  | [] => [x]
  | y :: l' => if key x <=? key y then x :: l else y :: insert_by key x l'
  end.

Definition sort_by {A} (key : A → Z) (l : list A) : list A :=
  foldr (insert_by key) [] l.

(** The number of positions [i > 0] of a sequence of directions with
    [d1] at [i - 1] and [d2] at [i]. *)
Definition adjacent_at (d1 d2 : direction) (ds : list direction) (i : nat) : Prop :=
  (0 < i)%nat ∧ ds !! (i - 1)%nat = Some d1 ∧ ds !! i = Some d2.

#[global] Instance adjacent_at_dec d1 d2 ds i : Decision (adjacent_at d1 d2 ds i).
Proof. unfold adjacent_at. apply _. Defined.

Definition count_adjacent (d1 d2 : direction) (ds : list direction) : nat :=
  length (filter (adjacent_at d1 d2 ds) (seq 0 (length ds))).

(** *** calculateResponseTimes (analyticsService.js) *)

(** What is kept of a message in its group; [message_timestamp] is a
    [Date], milliseconds since the epoch. *)
Module Message.
Record t := {
  sender_number : string;
  direction : direction;
  message_timestamp : Z;
  date : string
}.
End Message.

Module ResponseTime.
Record t := {
  user_id : option Z;
  org_id : option Z;
  phone_number : string;
  date : string;
  response_time : Q
}.
End ResponseTime.

(** [for (let k = j + 1; k < i; k++) if (groupMessages[k].direction ===
    'OUTGOING') { hasOutgoingBetween = true; break; }] *)
Definition hasOutgoingBetween (groupMessages : list Message.t) (j i : nat) : bool :=
  existsb (λ k, bool_decide (Message.direction <$> groupMessages !! k = Some OUTGOING))
          (seq (j + 1) (i - (j + 1))).

(** [for (let j = i - 1; j >= 0; j--)], entered with [n = j + 1]: the index
    of the incoming message the loop breaks at, if it breaks.  An
    incoming message with an outgoing one after it does not end the loop. *)
Fixpoint scan_back (groupMessages : list Message.t) (i n : nat) : option nat :=
  match n with
  | O => None
  | S j =>
      if bool_decide (Message.direction <$> groupMessages !! j = Some INCOMING) then
        if hasOutgoingBetween groupMessages j i then scan_back groupMessages i j
        else Some j
      else scan_back groupMessages i j
  end.

(** One turn of [for (let i = 0; i < groupMessages.length; i++)]: what it
    pushes on [responseTimesForGroup]. *)
Definition response_at (head_date : string) (user_id org_id : option Z)
    (groupMessages : list Message.t) (i : nat) : list ResponseTime.t :=
  match groupMessages !! i with
  | Some currentMsg =>
      if bool_decide (Message.direction currentMsg = OUTGOING) then
        match scan_back groupMessages i i with
        | Some j =>
            match groupMessages !! j with
            | Some prevMsg =>
                [ {| ResponseTime.user_id := parseInt user_id;
                     ResponseTime.org_id := parseInt org_id;
                     ResponseTime.phone_number := Message.sender_number currentMsg;
                     ResponseTime.date := head_date;
                     ResponseTime.response_time :=
                       (inject_Z (Message.message_timestamp currentMsg
                                  - Message.message_timestamp prevMsg) / 1000)%Q |} ]
            | None => []
            end
        | None => []
        end
      else []
  | None => []
  end.

(** The body of [messageGroups.forEach] up to the average: the group is
    sorted by timestamp, then scanned. *)
Definition responseTimesForGroup (user_id org_id : option Z)
    (group : list Message.t) : list ResponseTime.t :=
  let groupMessages := sort_by Message.message_timestamp group in
  let head_date := from_option Message.date "" (head groupMessages) in
  flat_map (response_at head_date user_id org_id groupMessages)
           (seq 0 (length groupMessages)).

(** A row handed to [calculateResponseTimes]: the three ids as the
    template literal of the key prints them, [date] the string [dateStr],
    [message_timestamp] the value of [new Date(msg.message_timestamp.value)]
    in milliseconds. *)
Module MessageRow.
Record t := {
  user_id : string;
  org_id : string;
  chat_id : string;
  sender_number : string;
  direction : direction;
  message_timestamp : Z;
  date : string
}.
End MessageRow.




(** ** The merge queries *)

(** A row of [message_events]; ids are strings, [None] is [NULL]. *)
Module Event.
Record t := {
  event_id : string;
  message_id : string;
  chat_id : string;
  user_id : option string;
  org_id : option string;
  agent_phone_number : option string;
  sender_number : option string;
  direction : direction;
  message_timestamp : timestamp;
  ingestion_timestamp : timestamp
}.
End Event.

(** A row of [events_with_lag]: the event and the row before it in its
    window, from which [LAG(direction, 1)] and [LAG(message_timestamp, 1)]
    are read; [None] on the first row of the window. *)
Module Lagged.
Record t := {
  event : Event.t;
  prev : option Event.t
}.
Definition prev_direction (r : t) : option direction := Event.direction <$> prev r.
Definition prev_message_timestamp (r : t) : option timestamp :=
  Event.message_timestamp <$> prev r.
End Lagged.

(** A row of [response_events]. *)
Module ResponseEvent.
Record t := {
  chat_id : string;
  user_id : option string;
  org_id : option string;
  message_timestamp : timestamp;
  prev_message_timestamp : timestamp
}.
End ResponseEvent.

(** A row of the BigQuery table [working_hours]. *)
Module WorkingHoursUtc.
Record row := {
  user_id : option string;
  org_id : option string;
  day_of_week : option Z;
  start_time_utc : option time;
  end_time_utc : option time
}.
End WorkingHoursUtc.

(** The two lifetime queries on [conversation_summary]. *)
Inductive lifetime_query :=
| Original  (* conversation_summary_merge.sql *)
| Fixed     (* conversation_summary_merge_FIXED.sql *).

(** [LAG(.., 1) OVER (.. ORDER BY message_timestamp)] along one window. *)
Fixpoint lag_rows (prev : option Event.t) (window : list Event.t) : list Lagged.t :=
  match window with
  | [] => []
  | e :: rest => {| Lagged.event := e; Lagged.prev := prev |} :: lag_rows (Some e) rest
  end.

(** [events_with_day]: the FIXED query drops the events without a user. *)
Definition events_with_day (q : lifetime_query) (message_events : list Event.t)
  : list Event.t :=
  match q with
  | Original => message_events
  | Fixed => filter (λ e, Event.user_id e ≠ None) message_events
  end.

(** The window [PARTITION BY chat_id ORDER BY message_timestamp] of a chat. *)
Definition chat_window (q : lifetime_query) (message_events : list Event.t)
    (chat : string) : list Event.t :=
  sort_by Event.message_timestamp
          (filter (λ e, Event.chat_id e = chat) (events_with_day q message_events)).

(** The rows of [events_with_lag] of a chat. *)
Definition events_with_lag (q : lifetime_query) (message_events : list Event.t)
    (chat : string) : list Lagged.t :=
  lag_rows None (chat_window q message_events chat).

(** [WHERE events.direction = 'OUTGOING' AND events.prev_direction = 'INCOMING'] *)
Definition is_response (r : Lagged.t) : Prop :=
  Event.direction (Lagged.event r) = OUTGOING ∧ Lagged.prev_direction r = Some INCOMING.

#[global] Instance is_response_dec r : Decision (is_response r).
Proof. unfold is_response. apply _. Defined.

Definition response_event (r : Lagged.t) : option ResponseEvent.t :=
  match Lagged.prev r with
  | Some p =>
      if decide (is_response r) then
        Some {| ResponseEvent.chat_id := Event.chat_id (Lagged.event r);
                ResponseEvent.user_id := Event.user_id (Lagged.event r);
                ResponseEvent.org_id := Event.org_id (Lagged.event r);
                ResponseEvent.message_timestamp := Event.message_timestamp (Lagged.event r);
                ResponseEvent.prev_message_timestamp := Event.message_timestamp p |}
      else None
  | None => None
  end.

(** The rows of [response_events] of a chat. *)
Definition response_events (q : lifetime_query) (message_events : list Event.t)
    (chat : string) : list ResponseEvent.t :=
  omap response_event (events_with_lag q message_events chat).

(** The key of a group of [chat_aggregates]:
    [GROUP BY chat_id, agent_phone_number] in the original query,
    [GROUP BY chat_id, user_id, org_id, agent_phone_number] in the FIXED one.
    [GROUP BY] puts [NULL]s in one group. *)
Record chat_key := {
  key_chat_id : string;
  key_user_id : option string;
  key_org_id : option string;
  key_agent_phone_number : option string
}.

Definition in_group (q : lifetime_query) (k : chat_key) (e : Event.t) : Prop :=
  Event.chat_id e = key_chat_id k
  ∧ Event.agent_phone_number e = key_agent_phone_number k
  ∧ match q with
    | Original => True
    | Fixed => Event.user_id e = key_user_id k ∧ Event.org_id e = key_org_id k
    end.

#[global] Instance in_group_dec q k e : Decision (in_group q k e).
Proof. unfold in_group. destruct q; apply _. Defined.

(** [COUNTIF(direction = 'OUTGOING' AND prev_direction = 'OUTGOING')] *)
Definition is_follow_up (r : Lagged.t) : Prop :=
  Event.direction (Lagged.event r) = OUTGOING ∧ Lagged.prev_direction r = Some OUTGOING.

#[global] Instance is_follow_up_dec r : Decision (is_follow_up r).
Proof. unfold is_follow_up. apply _. Defined.

Definition follow_up_count (q : lifetime_query) (message_events : list Event.t)
    (k : chat_key) : nat :=
  length (filter (λ r, in_group q k (Lagged.event r) ∧ is_follow_up r)
                 (events_with_lag q message_events (key_chat_id k))).

(** *** average_response_time *)

(** [MAX] of a column: the largest non-[NULL] value, [NULL] without one. *)
Definition MAX (xs : list (option Z)) : option Z :=
  foldr (λ x acc, match x, acc with
                  | Some a, Some b => Some (Z.max a b)
                  | Some a, None => Some a
                  | None, _ => acc
                  end) None xs.

(** [MAX(CASE WHEN day_of_week = k THEN col END)] over the rows of a group. *)
Definition day_column (rows : list WorkingHoursUtc.row) (k : Z)
    (col : WorkingHoursUtc.row → option time) : option time :=
  MAX ((λ r, if decide (WorkingHoursUtc.day_of_week r = Some k) then col r else None)
       <$> rows).

(** The [day_of_week] number each query reads Monday .. Sunday from:
    1 .. 7 in the original query, 2 .. 7, 1 in the FIXED one. *)
Definition day_number (q : lifetime_query) (monday_based : Z) : Z :=
  match q with
  | Original => monday_based
  | Fixed => monday_based `mod` 7 + 1
  end.

(** The row of [user_working_hours] ([GROUP BY user_id, org_id]) that
    [LEFT JOIN .. ON re.user_id = wh.user_id AND re.org_id = wh.org_id]
    joins to a response event; [None] when no row joins, which is also
    the case when either id of the event is [NULL]. *)
Definition user_working_hours (q : lifetime_query)
    (working_hours : list WorkingHoursUtc.row) (user org : option string)
  : option working_hours_args :=
  match user, org with
  | Some _, Some _ =>
      let rows := filter (λ r, WorkingHoursUtc.user_id r = user
                               ∧ WorkingHoursUtc.org_id r = org) working_hours in
      let starts k := day_column rows (day_number q k) WorkingHoursUtc.start_time_utc in
      let ends k := day_column rows (day_number q k) WorkingHoursUtc.end_time_utc in
      if decide (rows = []) then None
      else Some {| monday_start := starts 1;    monday_end := ends 1;
                   tuesday_start := starts 2;   tuesday_end := ends 2;
                   wednesday_start := starts 3; wednesday_end := ends 3;
                   thursday_start := starts 4;  thursday_end := ends 4;
                   friday_start := starts 5;    friday_end := ends 5;
                   saturday_start := starts 6;  saturday_end := ends 6;
                   sunday_start := starts 7;    sunday_end := ends 7 |}
  | _, _ => None
  end.

(** [COALESCE(wh.d_start, TIME(0, 0, 0))] *)
Definition COALESCE_time (wh : option working_hours_args)
    (col : working_hours_args → option time) : option time :=
  Some (default (TIME_of 0 0 0) (wh ≫= col)).

(** The fourteen arguments the queries pass to the UDF. *)
Definition udf_arguments (wh : option working_hours_args) : working_hours_args :=
  {| monday_start := COALESCE_time wh monday_start;
     monday_end := COALESCE_time wh monday_end;
     tuesday_start := COALESCE_time wh tuesday_start;
     tuesday_end := COALESCE_time wh tuesday_end;
     wednesday_start := COALESCE_time wh wednesday_start;
     wednesday_end := COALESCE_time wh wednesday_end;
     thursday_start := COALESCE_time wh thursday_start;
     thursday_end := COALESCE_time wh thursday_end;
     friday_start := COALESCE_time wh friday_start;
     friday_end := COALESCE_time wh friday_end;
     saturday_start := COALESCE_time wh saturday_start;
     saturday_end := COALESCE_time wh saturday_end;
     sunday_start := COALESCE_time wh sunday_start;
     sunday_end := COALESCE_time wh sunday_end |}.

(** The UDF call on one response event, as both queries write it. *)
Definition working_seconds (v : udf_revision) (q : lifetime_query)
    (working_hours : list WorkingHoursUtc.row) (re : ResponseEvent.t) : Z :=
  calculate_working_seconds_sql v
    (ResponseEvent.prev_message_timestamp re) (ResponseEvent.message_timestamp re)
    (udf_arguments (user_working_hours q working_hours
                      (ResponseEvent.user_id re) (ResponseEvent.org_id re))).

Definition SUM (xs : list Z) : Z := foldr Z.add 0 xs.

(** [AVG]: the mean of the non-[NULL] values, [NULL] without one.  The
    [FLOAT64] it returns is kept as the exact quotient. *)
Definition AVG (xs : list (option Z)) : option Q :=
  match omap id xs with
  | [] => None
  | y :: ys => Some (inject_Z (SUM (y :: ys)) / inject_Z (Z.of_nat (length (y :: ys))))%Q
  end.

(** The original query: the correlated subquery
    [(SELECT AVG(udf(..)) FROM response_events re LEFT JOIN .. WHERE
    re.chat_id = agg.chat_id)]. *)
Definition average_response_time_original (v : udf_revision)
    (message_events : list Event.t) (working_hours : list WorkingHoursUtc.row)
    (k : chat_key) : option Q :=
  AVG ((λ re, Some (working_seconds v Original working_hours re))
       <$> response_events Original message_events (key_chat_id k)).

(** The FIXED query.  The rows of [response_with_working_seconds] in the
    group [(chat_id, user_id, org_id)] of [response_time_by_chat]. *)
Definition response_group (message_events : list Event.t) (k : chat_key)
  : list ResponseEvent.t :=
  filter (λ re, ResponseEvent.user_id re = key_user_id k
                ∧ ResponseEvent.org_id re = key_org_id k)
         (response_events Fixed message_events (key_chat_id k)).

(** [AVG(CASE WHEN working_seconds > 0 THEN working_seconds END)] *)
Definition response_time_by_chat (v : udf_revision)
    (message_events : list Event.t) (working_hours : list WorkingHoursUtc.row)
    (k : chat_key) : option Q :=
  AVG ((λ re, let ws := working_seconds v Fixed working_hours re in
              if 0 <? ws then Some ws else None)
       <$> response_group message_events k).

(** [COALESCE(rt.average_response_time, 0)] after
    [LEFT JOIN response_time_by_chat rt ON agg.chat_id = rt.chat_id AND
    agg.user_id = rt.user_id AND agg.org_id = rt.org_id]: a key with a
    [NULL] id joins no row. *)
Definition average_response_time_fixed (v : udf_revision)
    (message_events : list Event.t) (working_hours : list WorkingHoursUtc.row)
    (k : chat_key) : Q :=
  let rt := match key_user_id k, key_org_id k with
            | Some _, Some _ => response_time_by_chat v message_events working_hours k
            | _, _ => None
            end in
  default 0%Q rt.

(** The mean the specification asks for: over the values that are not
    zero, and 0 when there is none. *)
Definition mean_ignoring_zeros (xs : list Z) : Q :=
  match filter (λ x, x ≠ 0) xs with
  | [] => 0%Q
  | y :: ys => (inject_Z (SUM (y :: ys)) / inject_Z (Z.of_nat (length (y :: ys))))%Q
  end.
(** *** A chat used by the scenarios *)

(** User 14024 of organisation 2 in chat-1: a message comes in on Monday
    at 10:00 and is answered at 10:05; another comes in at 20:00 and is
    answered at 20:01. *)
Definition chat_event (id : string) (d : direction) (ts : timestamp) : Event.t :=
  {| Event.event_id := id; Event.message_id := id; Event.chat_id := "chat-1";
     Event.user_id := Some "14024"; Event.org_id := Some "2";
     Event.agent_phone_number := Some "919000000001";
     Event.sender_number := Some "919000000002";
     Event.direction := d;
     Event.message_timestamp := ts; Event.ingestion_timestamp := ts |}.

Definition chat_1 : chat_key :=
  {| key_chat_id := "chat-1"; key_user_id := Some "14024"; key_org_id := Some "2";
     key_agent_phone_number := Some "919000000001" |}.

Definition one_reply : list Event.t :=
  [chat_event "e1" INCOMING mon_10_00; chat_event "e2" OUTGOING mon_10_05].

Definition two_replies : list Event.t :=
  one_reply ++ [chat_event "e3" INCOMING mon_20_00; chat_event "e4" OUTGOING mon_20_01].


(** 09:00-18:00 for that user on each of the seven [day_of_week] numbers. *)
Definition nine_to_six_every_day : list WorkingHoursUtc.row :=
  (λ k, {| WorkingHoursUtc.user_id := Some "14024"; WorkingHoursUtc.org_id := Some "2";
           WorkingHoursUtc.day_of_week := Some k;
           WorkingHoursUtc.start_time_utc := Some (TIME_of 9 0 0);
           WorkingHoursUtc.end_time_utc := Some (TIME_of 18 0 0) |})
  <$> [1; 2; 3; 4; 5; 6; 7].

(** *** Further definitions used to state properties of the UDF *)

(** The two columns the [WHEN] of day-of-week number [dow] reads. *)
Definition day_columns (a : working_hours_args) (dow : Z) : option time * option time :=
  if dow =? 2 then (monday_start a, monday_end a)
  else if dow =? 3 then (tuesday_start a, tuesday_end a)
  else if dow =? 4 then (wednesday_start a, wednesday_end a)
  else if dow =? 5 then (thursday_start a, thursday_end a)
  else if dow =? 6 then (friday_start a, friday_end a)
  else if dow =? 7 then (saturday_start a, saturday_end a)
  else if dow =? 1 then (sunday_start a, sunday_end a)
  else (None, None).

Definition MICROS_PER_WEEK : Z := 7 * MICROS_PER_DAY.

(** *** prepareWorkingHoursConfig (analyticsService.js) *)

Module ConfigRow.
Record t := {
  user_id : string;
  org_id : string;
  week_day : string;
  start_time : string;
  end_time : string
}.
End ConfigRow.

(** The two nested [for .. of] loops pushing one row per entry of each
    user.  [String(..)] and [.toLowerCase()] are the JavaScript built-ins,
    taken as they come. *)
Definition prepareWorkingHoursConfig (js_String : option Z → string)
    (toLowerCase : string → string) (data : list Resolved.t) : list ConfigRow.t :=
  flat_map (λ user,
              (λ wh, {| ConfigRow.user_id := js_String (Resolved.user_id user);
                        ConfigRow.org_id := js_String (Resolved.org_id user);
                        ConfigRow.week_day := toLowerCase (WorkingHours.week_day wh);
                        ConfigRow.start_time := WorkingHours.start_time wh;
                        ConfigRow.end_time := WorkingHours.end_time wh |})
              <$> Resolved.working_hours user)
           data.

(** *** The average of a group (calculateResponseTimes) *)

(** [Math.round]: the nearest integer, a half going up. *)
Definition Math_round (x : Q) : Z := Qfloor (x + (1 # 2))%Q.


(** *** The other columns of chat_aggregates *)

(** The rows of [events_with_lag] in the group of a key. *)
Definition chat_group (q : lifetime_query) (message_events : list Event.t)
    (k : chat_key) : list Lagged.t :=
  filter (λ r, in_group q k (Lagged.event r))
         (events_with_lag q message_events (key_chat_id k)).

(** [MIN] of a column: the smallest non-[NULL] value, [NULL] without one. *)
Definition MIN (xs : list (option Z)) : option Z :=
  foldr (λ x acc, match x, acc with
                  | Some a, Some b => Some (Z.min a b)
                  | Some a, None => Some a
                  | None, _ => acc
                  end) None xs.

(** [COUNTIF(direction = 'INCOMING')], [COUNTIF(direction = 'OUTGOING')] *)
Definition contact_message_count (group : list Lagged.t) : nat :=
  length (filter (λ r, Event.direction (Lagged.event r) = INCOMING) group).

Definition agent_message_count (group : list Lagged.t) : nat :=
  length (filter (λ r, Event.direction (Lagged.event r) = OUTGOING) group).

(** [MIN(message_timestamp)], [MAX(message_timestamp)] *)
Definition conversation_start_ts (group : list Lagged.t) : option timestamp :=
  MIN ((λ r, Some (Event.message_timestamp (Lagged.event r))) <$> group).

Definition last_message_ts (group : list Lagged.t) : option timestamp :=
  MAX ((λ r, Some (Event.message_timestamp (Lagged.event r))) <$> group).

(** [MIN(IF(direction = d, message_timestamp, NULL))] *)
Definition first_message_ts (d : direction) (group : list Lagged.t) : option timestamp :=
  MIN ((λ r, if decide (Event.direction (Lagged.event r) = d)
             then Some (Event.message_timestamp (Lagged.event r)) else None) <$> group).

Definition first_contact_message_ts : list Lagged.t → option timestamp :=
  first_message_ts INCOMING.
Definition first_agent_message_ts : list Lagged.t → option timestamp :=
  first_message_ts OUTGOING.

(** [ARRAY_AGG(STRUCT(direction) ORDER BY message_timestamp ASC LIMIT 1)
    [OFFSET(0)].direction]: the direction of an event with the smallest
    timestamp.  Among several such events the query may take any; the
    first in the stable order is taken here. *)
Definition starter_direction (group : list Lagged.t) : option direction :=
  Event.direction <$> head (sort_by Event.message_timestamp (Lagged.event <$> group)).

(** [COUNT(DISTINCT message_id)] *)
Definition unique_messages (group : list Lagged.t) : nat :=
  length (remove_dups ((λ r, Event.message_id (Lagged.event r)) <$> group)).

(** [(agg.agent_message_count + agg.contact_message_count) AS total_messages] *)
Definition total_messages (group : list Lagged.t) : nat :=
  (agent_message_count group + contact_message_count group)%nat.

(** [IF(agg.starter_direction = 'OUTGOING', 'employee', 'contact')] *)
Definition conversation_starter (group : list Lagged.t) : string :=
  if decide (starter_direction group = Some OUTGOING) then "employee" else "contact".

(** *** The MERGE statements on conversation_summary *)

(** [a = b] in SQL is true only between two values that are not [NULL]. *)
Definition sql_eq {A} `{EqDecision A} (a b : option A) : bool :=
  match a, b with
  | Some x, Some y => bool_decide (x = y)
  | _, _ => false
  end.

Module Analytics.
Record t := {
  messages_sent : Z;
  messages_received : Z;
  total_messages : Z;
  unique_messages : Z;
  number_of_follow_ups : Z
}.
End Analytics.

(** A row of [conversation_summary], and a row of the source [S] of the
    two statements, which has the same columns but [date]: the statements
    neither read nor set the [date] of a row. *)
Module Summary.
Record row := {
  uid : option string;
  org_id : option string;
  chat_id : option string;
  phone_number : option string;
  date : option Z;
  analytics : option Analytics.t;
  average_response_time : option Q;
  conversation_starter : option string;
  last_message_from : option string;
  created_at : option timestamp;
  updated_at : option timestamp
}.
End Summary.

(** The [ON] of the two statements; the FIXED one adds
    [T.org_id = S.org_id]. *)
Definition merge_on (q : lifetime_query) (t s : Summary.row) : bool :=
  sql_eq (Summary.uid t) (Summary.uid s)
  && match q with
     | Original => true
     | Fixed => sql_eq (Summary.org_id t) (Summary.org_id s)
     end
  && sql_eq (Summary.chat_id t) (Summary.chat_id s)
  && sql_eq (Summary.phone_number t) (Summary.phone_number s).

(** [WHEN MATCHED THEN UPDATE SET T.org_id = S.org_id, T.analytics = ..,
    T.average_response_time = .., T.conversation_starter = ..,
    T.last_message_from = .., T.updated_at = S.updated_at] *)
Definition merge_update (t s : Summary.row) : Summary.row :=
  {| Summary.uid := Summary.uid t;
     Summary.org_id := Summary.org_id s;
     Summary.chat_id := Summary.chat_id t;
     Summary.phone_number := Summary.phone_number t;
     Summary.date := Summary.date t;
     Summary.analytics := Summary.analytics s;
     Summary.average_response_time := Summary.average_response_time s;
     Summary.conversation_starter := Summary.conversation_starter s;
     Summary.last_message_from := Summary.last_message_from s;
     Summary.created_at := Summary.created_at t;
     Summary.updated_at := Summary.updated_at s |}.

(** [WHEN NOT MATCHED THEN INSERT (uid, org_id, chat_id, phone_number,
    analytics, average_response_time, conversation_starter,
    last_message_from, created_at, updated_at) VALUES (S. ..)] *)
Definition merge_insert (s : Summary.row) : Summary.row :=
  {| Summary.uid := Summary.uid s;
     Summary.org_id := Summary.org_id s;
     Summary.chat_id := Summary.chat_id s;
     Summary.phone_number := Summary.phone_number s;
     Summary.date := None;
     Summary.analytics := Summary.analytics s;
     Summary.average_response_time := Summary.average_response_time s;
     Summary.conversation_starter := Summary.conversation_starter s;
     Summary.last_message_from := Summary.last_message_from s;
     Summary.created_at := Summary.created_at s;
     Summary.updated_at := Summary.updated_at s |}.

(** What [MERGE .. WHEN MATCHED THEN UPDATE] does with one target row:
    it stays as it is without a matching source row, is updated from the
    one that matches, and the statement fails when more than one does. *)
Definition merge_matched (q : lifetime_query) (source : list Summary.row)
    (t : Summary.row) : option Summary.row :=
  match filter (λ s, merge_on q t s = true) source with
  | [] => Some t
  | [s] => Some (merge_update t s)
  | _ :: _ :: _ => None
  end.

(** The source rows [WHEN NOT MATCHED] inserts: those no target row
    matches. *)
Definition not_matched (q : lifetime_query) (target source : list Summary.row)
  : list Summary.row :=
  filter (λ s, Forall (λ t, merge_on q t s = false) target) source.

(** The table after the statement, [None] when it fails. *)
Definition MERGE (q : lifetime_query) (target source : list Summary.row)
  : option (list Summary.row) :=
  updated ← mapM (merge_matched q source) target;
  Some (updated ++ (merge_insert <$> not_matched q target source)).

(** The columns [ON] compares, for each statement. *)
Definition merge_key (q : lifetime_query) (s : Summary.row)
  : option string * option string * option string * option string :=
  (Summary.uid s,
   match q with Original => None | Fixed => Summary.org_id s end,
   Summary.chat_id s, Summary.phone_number s).

Definition key_not_null (q : lifetime_query) (s : Summary.row) : Prop :=
  is_Some (Summary.uid s) ∧ is_Some (Summary.chat_id s)
  ∧ is_Some (Summary.phone_number s)
  ∧ match q with Original => True | Fixed => is_Some (Summary.org_id s) end.

(** *** The daily query on daily_performance_summary *)

(** The key of a group of [daily_aggregates]:
    [GROUP BY activity_date, user_id, org_id, chat_id, agent_phone_number]. *)
Record daily_key := {
  day_activity_date : Z;
  day_user_id : option string;
  day_org_id : option string;
  day_chat_id : string;
  day_agent_phone_number : option string
}.

(** [DATE(message_timestamp) AS activity_date] *)
Definition activity_date (e : Event.t) : Z := DATE UTC (Event.message_timestamp e).

(** The rows of [events_with_daily_lag] in the window
    [PARTITION BY user_id, chat_id ORDER BY message_timestamp]. *)
Definition events_with_daily_lag (message_events : list Event.t)
    (user : option string) (chat : string) : list Lagged.t :=
  lag_rows None
    (sort_by Event.message_timestamp
       (filter (λ e, Event.user_id e = user ∧ Event.chat_id e = chat) message_events)).

(** The rows of a group of [daily_aggregates]
    ([FROM events_with_daily_lag WHERE user_id IS NOT NULL]). *)
Definition daily_group (message_events : list Event.t) (k : daily_key) : list Lagged.t :=
  filter (λ r, Event.user_id (Lagged.event r) ≠ None
               ∧ activity_date (Lagged.event r) = day_activity_date k
               ∧ Event.org_id (Lagged.event r) = day_org_id k
               ∧ Event.agent_phone_number (Lagged.event r) = day_agent_phone_number k)
         (events_with_daily_lag message_events (day_user_id k) (day_chat_id k)).

(** [response_events] of the daily query, for the rows the subquery of a
    key reads: [WHERE direction = 'OUTGOING' AND prev_direction = 'INCOMING'
    AND prev_message_timestamp IS NOT NULL], then [WHERE re.user_id =
    agg.user_id AND re.chat_id = agg.contact_id AND re.activity_date =
    agg.activity_date]. *)
Definition daily_response_events (message_events : list Event.t) (k : daily_key)
  : list ResponseEvent.t :=
  match day_user_id k with
  | None => []
  | Some _ =>
      omap (λ r, if decide (is_Some (Lagged.prev_message_timestamp r)
                            ∧ activity_date (Lagged.event r) = day_activity_date k)
                 then response_event r else None)
           (events_with_daily_lag message_events (day_user_id k) (day_chat_id k))
  end.

(** [(SELECT AVG(CASE WHEN udf(..) > 0 THEN udf(..) END) FROM response_events
    re LEFT JOIN user_working_hours wh ..) AS avg_agent_response_time_seconds] *)
Definition avg_agent_response_time_seconds (v : udf_revision)
    (message_events : list Event.t) (working_hours : list WorkingHoursUtc.row)
    (k : daily_key) : option Q :=
  AVG ((λ re, let ws := working_seconds v Fixed working_hours re in
              if 0 <? ws then Some ws else None)
       <$> daily_response_events message_events k).

(** [IF(agg.first_agent_message_ts > agg.first_contact_message_ts,
    (SELECT udf(..) FROM user_working_hours wh WHERE wh.user_id = agg.user_id
    AND wh.org_id = agg.org_id), NULL) AS time_to_first_response_seconds]:
    the scalar subquery is [NULL] for a user without working hours. *)
Definition time_to_first_response_seconds (v : udf_revision)
    (message_events : list Event.t) (working_hours : list WorkingHoursUtc.row)
    (k : daily_key) : option Z :=
  match first_agent_message_ts (daily_group message_events k),
        first_contact_message_ts (daily_group message_events k) with
  | Some agent_ts, Some contact_ts =>
      if agent_ts >? contact_ts then
        match user_working_hours Fixed working_hours (day_user_id k) (day_org_id k) with
        | Some wh =>
            Some (calculate_working_seconds_sql v contact_ts agent_ts
                    (udf_arguments (Some wh)))
        | None => None
        end
      else None
  | _, _ => None
  end.

(** *** calculateSummaryStatistics (analyticsService.js) *)

(** [Math.round(responseTimes.reduce((sum, rt) => sum + rt, 0) /
    responseTimes.length)], [Math.min(...responseTimes)] and
    [Math.max(...responseTimes)] over the [avg_response_time] of the
    records, which are whole numbers; all three are 0 for no record. *)
Definition avgResponseTime (responseTimes : list Z) : Z :=
  match responseTimes with
  | [] => 0
  | _ :: _ => Math_round (inject_Z (foldl Z.add 0 responseTimes)
                          / inject_Z (Z.of_nat (length responseTimes)))
  end.

Definition minResponseTime (responseTimes : list Z) : Z :=
  match responseTimes with
  | [] => 0
  | rt :: rest => foldl Z.min rt rest
  end.

Definition maxResponseTime (responseTimes : list Z) : Z :=
  match responseTimes with
  | [] => 0
  | rt :: rest => foldl Z.max rt rest
  end.

(** A source row for chat-1, and the same row for an event stream that
    carries no agent phone number. *)
Definition summary_chat_1 (phone : option string) : Summary.row :=
  {| Summary.uid := Some "14024"; Summary.org_id := Some "2";
     Summary.chat_id := Some "chat-1"; Summary.phone_number := phone;
     Summary.date := None;
     Summary.analytics :=
       Some {| Analytics.messages_sent := 1; Analytics.messages_received := 1;
               Analytics.total_messages := 2; Analytics.unique_messages := 2;
               Analytics.number_of_follow_ups := 0 |};
     Summary.average_response_time := Some 300%Q;
     Summary.conversation_starter := Some "contact";
     Summary.last_message_from := Some "employee";
     Summary.created_at := Some mon_10_00; Summary.updated_at := Some mon_10_05 |}.








(** The contact writes and the agent replies five minutes later, as
    [calculateResponseTimes] stores them (timestamps in milliseconds). *)
Definition question_and_reply : list Message.t :=
  [ {| Message.sender_number := "919000000002"; Message.direction := INCOMING;
       Message.message_timestamp := 1736157600000; Message.date := "2025-01-06" |};
    {| Message.sender_number := "919000000001"; Message.direction := OUTGOING;
       Message.message_timestamp := 1736157900000; Message.date := "2025-01-06" |} ].

(** The group of [daily_aggregates] of chat-1 on that Monday. *)
Definition chat_1_monday : daily_key :=
  {| day_activity_date := mon_2025_01_06; day_user_id := Some "14024";
     day_org_id := Some "2"; day_chat_id := "chat-1";
     day_agent_phone_number := Some "919000000001" |}.

(** ** Facts about the time functions *)

Lemma MICROS_PER_DAY_pos : 0 < MICROS_PER_DAY.
Proof. reflexivity. Qed.

Lemma timestamp_split (z : zone) (ts : timestamp) :
  ts + utc_offset z = MICROS_PER_DAY * DATE z ts + TIME z ts.
Proof. unfold DATE, TIME. apply Z.div_mod. discriminate. Qed.

Lemma TIME_range (z : zone) (ts : timestamp) : 0 <= TIME z ts < MICROS_PER_DAY.
Proof. unfold TIME. apply Z.mod_pos_bound, MICROS_PER_DAY_pos. Qed.

(** On one civil day the time of day orders instants as the instants are. *)
Lemma same_date_TIME_diff (z : zone) (t0 t1 : timestamp) :
  DATE z t0 = DATE z t1 → TIME z t1 - TIME z t0 = t1 - t0.
Proof.
  intros Hd. pose proof (timestamp_split z t0). pose proof (timestamp_split z t1).
  rewrite Hd in *. lia.
Qed.

Lemma DATE_mono (z : zone) (t0 t1 : timestamp) : t0 <= t1 → DATE z t0 <= DATE z t1.
Proof. intros. unfold DATE. apply Z.div_le_mono; [apply MICROS_PER_DAY_pos | lia]. Qed.

Lemma TIMESTAMP_DIFF_SECOND_bounds (e s : timestamp) :
  s <= e →
  0 <= TIMESTAMP_DIFF_SECOND e s ∧ TIMESTAMP_DIFF_SECOND e s * MICROS_PER_SECOND <= e - s.
Proof.
  intros. unfold TIMESTAMP_DIFF_SECOND.
  rewrite Z.quot_div_nonneg by (unfold MICROS_PER_SECOND; lia).
  split.
  - apply Z.div_pos; unfold MICROS_PER_SECOND; lia.
  - rewrite Z.mul_comm. apply Z.mul_div_le. reflexivity.
Qed.

Lemma TIMESTAMP_DIFF_SECOND_mono (s e1 e2 : timestamp) :
  s <= e1 → e1 <= e2 → TIMESTAMP_DIFF_SECOND e1 s <= TIMESTAMP_DIFF_SECOND e2 s.
Proof.
  intros. unfold TIMESTAMP_DIFF_SECOND.
  rewrite !Z.quot_div_nonneg by (unfold MICROS_PER_SECOND; lia).
  apply Z.div_le_mono; [reflexivity | lia].
Qed.

(** ** Facts about the UDF *)

Section Udf.
Context (v : udf_revision) (a : working_hours_args).
#[local] Abbreviation z := (udf_zone v).
#[local] Abbreviation udf := (calculate_working_seconds_sql v).

(** The only two outcomes: zero, or the whole span of an interval that
    lies on one civil day between the two times of that weekday's branch. *)
Lemma udf_cases (t0 t1 : timestamp) :
  udf t0 t1 a = 0
  ∨ (t0 < t1 ∧ DATE z t0 = DATE z t1
     ∧ ∃ w, weekday_branch v (DAYOFWEEK z t0) a = Some w
            ∧ w.1 <= TIME z t0 ∧ TIME z t1 <= w.2
            ∧ udf t0 t1 a = TIMESTAMP_DIFF_SECOND t1 t0).
Proof.
  unfold calculate_working_seconds_sql.
  destruct (Z.geb_spec t0 t1) as [Hge|Hlt]; [by left|].
  destruct (Z.eqb_spec (DATE z t0) (DATE z t1)) as [Hd|Hd]; [|by left].
  destruct (weekday_branch v (DAYOFWEEK z t0) a) as [w|] eqn:Hw; [|by left].
  unfold within_window.
  destruct (Z.ltb_spec (TIME z t0) w.1) as [H0|H0]; [by left|].
  destruct (Z.gtb_spec (TIME z t1) w.2) as [H1|H1]; [by left|].
  right. simpl. repeat split; [lia|done|]. exists w. repeat split; [lia..|done].
Qed.

(** Conversely, such an interval is counted whole. *)
Lemma udf_counted (t0 t1 : timestamp) (w : time * time) :
  t0 < t1 → DATE z t0 = DATE z t1 →
  weekday_branch v (DAYOFWEEK z t0) a = Some w →
  w.1 <= TIME z t0 → TIME z t1 <= w.2 →
  udf t0 t1 a = TIMESTAMP_DIFF_SECOND t1 t0.
Proof.
  intros Hlt Hd Hw H0 H1. unfold calculate_working_seconds_sql, within_window.
  rewrite Hd, Z.eqb_refl, Hw.
  destruct (Z.geb_spec t0 t1); [lia|].
  destruct (Z.ltb_spec (TIME z t0) w.1); [lia|].
  destruct (Z.gtb_spec (TIME z t1) w.2); [lia|]. done.
Qed.

Lemma udf_nonneg (t0 t1 : timestamp) : 0 <= udf t0 t1 a.
Proof.
  destruct (udf_cases t0 t1) as [->|(Hlt & _ & w & _ & _ & _ & ->)]; [done|].
  apply TIMESTAMP_DIFF_SECOND_bounds. lia.
Qed.

End Udf.

(** Scenarios S1 and S2 on Monday 2025-01-06, 09:00-18:00: five minutes
    inside the window count whole; an interval that starts before the
    window opens counts nothing. *)
Example scenario_S1 :
  calculate_working_seconds_sql UdfUtc mon_10_00 mon_10_05 weekdays_nine_to_six = 300.
Proof. reflexivity. Qed.

Example scenario_S2 :
  calculate_working_seconds_sql UdfUtc (at_utc mon_2025_01_06 8 30 0)
    (at_utc mon_2025_01_06 9 30 0) weekdays_nine_to_six = 0.
Proof. reflexivity. Qed.

(** A branch of the chain is the pair of times of some weekday. *)
Lemma when_day_Some (v : udf_revision) (dow k : Z) (s e : option time) (w : time * time) :
  when_day v dow k s e = Some w →
  s = Some w.1 ∧ e = Some w.2
  ∧ (tests_closed_day v = true → ¬ (w.1 = 0 ∧ w.2 = 0)).
Proof.
  unfold when_day. destruct (dow =? k); [|done].
  destruct s as [s|], e as [e|]; try done.
  change (TIME_of 0 0 0) with 0.
  destruct (tests_closed_day v); simpl.
  - destruct (Z.eqb_spec s 0), (Z.eqb_spec e 0); simpl; intros [= <-]; simpl;
      repeat split; intros; lia.
  - intros [= <-]. done.
Qed.

(** With every weekday 00:00:00-00:00:00 a branch, if one is taken at all,
    is (00:00:00, 00:00:00), and then only in the revision that does not
    test for closed days. *)
Lemma weekday_branch_all_closed (v : udf_revision) (dow : Z) (w : time * time) :
  weekday_branch v dow all_closed = Some w → w = (0, 0) ∧ tests_closed_day v = false.
Proof.
  unfold weekday_branch, all_closed, same_hours_every, midnight_to_midnight; simpl.
  change (TIME_of 0 0 0) with 0.
  unfold when_day; simpl.
  destruct (tests_closed_day v); simpl;
    repeat (match goal with |- context [?x =? ?y] => destruct (x =? y) end; simpl);
    intros [= <-]; done.
Qed.

Lemma udf_all_closed (v : udf_revision) (t0 t1 : timestamp) :
  calculate_working_seconds_sql v t0 t1 all_closed = 0.
Proof.
  destruct (udf_cases v all_closed t0 t1) as [H|(Hlt & Hd & w & Hw & H0 & H1 & _)]; [done|].
  apply weekday_branch_all_closed in Hw as [-> _]. simpl in *.
  pose proof (same_date_TIME_diff _ _ _ Hd). pose proof (TIME_range (udf_zone v) t0). lia.
Qed.

(** ** The properties of the working-interval calculator *)

(** C1, as the code has it: whatever the schedule, an interval whose two
    ends fall on different civil days (in the zone of the revision) gets 0
    working seconds; the function does not walk the days in between. *)
Theorem different_days_return_zero (v : udf_revision) (a : working_hours_args)
    (t0 t1 : timestamp) :
  DATE (udf_zone v) t0 ≠ DATE (udf_zone v) t1 →
  calculate_working_seconds_sql v t0 t1 a = 0.
Proof.
  intros Hd. destruct (udf_cases v a t0 t1) as [H|(_ & Hd' & _)]; [done|].
  by destruct Hd.
Qed.

(** Scenario S3 itself: Saturday 2025-01-04 10:00Z to Monday 2025-01-06
    10:00Z, Monday to Friday 09:00-18:00. *)
Lemma different_days_return_zero_S3 :
  DATE (udf_zone UdfUtc) sat_10_00
    ≠ DATE (udf_zone UdfUtc) mon_10_00
  ∧ calculate_working_seconds_sql UdfUtc sat_10_00
      mon_10_00 weekdays_nine_to_six = 0.
Proof.
  split.
  - vm_compute. discriminate.
  - apply (different_days_return_zero UdfUtc). vm_compute. discriminate.
Defined.

(** C1 as stated fails: scenario S3 does not give 3600. *)
Lemma S3_is_not_3600 :
  DAYOFWEEK UTC sat_10_00 = 7
  ∧ DAYOFWEEK UTC mon_10_00 = 2
  ∧ calculate_working_seconds_sql UdfUtc sat_10_00
      mon_10_00 weekdays_nine_to_six ≠ 3600.
Proof. repeat split. vm_compute. discriminate. Qed.

(** C2, as the code has it: extending the right end never lowers the
    result as long as the longer interval ends on the civil day it starts
    on and not after the closing time of that weekday's branch. *)
Theorem monotone_until_closing_time (v : udf_revision) (a : working_hours_args)
    (t0 t1 t2 : timestamp) :
  t0 <= t1 <= t2 →
  DATE (udf_zone v) t0 = DATE (udf_zone v) t2 →
  (∀ w, weekday_branch v (DAYOFWEEK (udf_zone v) t0) a = Some w →
        TIME (udf_zone v) t2 <= w.2) →
  calculate_working_seconds_sql v t0 t2 a >= calculate_working_seconds_sql v t0 t1 a.
Proof.
  intros [H01 H12] Hd Hend. apply Z.le_ge.
  destruct (udf_cases v a t0 t1) as [->|(Hlt & _ & w & Hw & H0 & _ & ->)].
  - apply udf_nonneg.
  - rewrite (udf_counted v a t0 t2 w) by (auto; lia).
    apply TIMESTAMP_DIFF_SECOND_mono; lia.
Qed.

Lemma monotone_until_closing_time_monday :
  calculate_working_seconds_sql UdfUtc mon_10_00
      mon_17_00 weekdays_nine_to_six
  >= calculate_working_seconds_sql UdfUtc mon_10_00
      mon_10_05 weekdays_nine_to_six.
Proof.
  apply (monotone_until_closing_time UdfUtc).
  - vm_compute. split; discriminate.
  - reflexivity.
  - intros w. vm_compute. intros [= <-]. simpl. discriminate.
Defined.

(** C2 as stated fails: Monday 10:00 to 10:05 counts 300 seconds, Monday
    10:00 to Tuesday 10:00 counts none, and neither does Monday 10:00 to
    18:30. *)
Lemma longer_interval_counts_less :
  mon_10_00 <= mon_10_05 <= tue_10_00 ∧ mon_10_05 <= mon_18_30
  ∧ ¬ (calculate_working_seconds_sql UdfUtc mon_10_00 tue_10_00 weekdays_nine_to_six
       >= calculate_working_seconds_sql UdfUtc mon_10_00 mon_10_05 weekdays_nine_to_six)
  ∧ ¬ (calculate_working_seconds_sql UdfUtc mon_10_00 mon_18_30 weekdays_nine_to_six
       >= calculate_working_seconds_sql UdfUtc mon_10_00 mon_10_05 weekdays_nine_to_six).
Proof. vm_compute. repeat split; try discriminate; intros H; by apply H. Qed.

(** C7: with 00:00:00-00:00:00 on every weekday the result is 0 for every
    pair of instants, in each of the three revisions. *)
Theorem closed_every_day_counts_nothing (v : udf_revision) (t0 t1 : timestamp) :
  calculate_working_seconds_sql v t0 t1 all_closed = 0.
Proof. apply udf_all_closed. Qed.

(** C8: for [t0 <= t1] (otherwise the result is 0 by the first guard) the
    result is not negative and not more than the elapsed time (compared
    in microseconds, the result being whole seconds). *)
Theorem bounded_by_elapsed_time (v : udf_revision) (a : working_hours_args)
    (t0 t1 : timestamp) :
  t0 <= t1 →
  0 <= calculate_working_seconds_sql v t0 t1 a
  ∧ calculate_working_seconds_sql v t0 t1 a <= TIMESTAMP_DIFF_SECOND t1 t0
  ∧ calculate_working_seconds_sql v t0 t1 a * MICROS_PER_SECOND <= t1 - t0.
Proof.
  intros Hle. split; [apply udf_nonneg|].
  destruct (TIMESTAMP_DIFF_SECOND_bounds t1 t0 Hle) as [Hpos Hmicros].
  destruct (udf_cases v a t0 t1) as [->|(_ & _ & w & _ & _ & _ & ->)]; split; lia.
Qed.

Lemma bounded_by_elapsed_time_five_minutes :
  mon_10_00 <= mon_10_05
  ∧ 0 <= calculate_working_seconds_sql UdfUtc mon_10_00 mon_10_05 weekdays_nine_to_six
  ∧ calculate_working_seconds_sql UdfUtc mon_10_00 mon_10_05 weekdays_nine_to_six
    <= TIMESTAMP_DIFF_SECOND mon_10_05 mon_10_00
  ∧ calculate_working_seconds_sql UdfUtc mon_10_00 mon_10_05 weekdays_nine_to_six
      * MICROS_PER_SECOND
    <= mon_10_05 - mon_10_00.
Proof.
  assert (Hle : mon_10_00 <= mon_10_05) by (vm_compute; discriminate).
  split; [exact Hle|]. exact (bounded_by_elapsed_time UdfUtc weekdays_nine_to_six _ _ Hle).
Defined.

(** C10: for [t0 < t1] the result is 0 or the whole span
    [TIMESTAMP_DIFF(t1, t0, SECOND)], never a value strictly between. *)
Theorem all_or_nothing (v : udf_revision) (a : working_hours_args)
    (t0 t1 : timestamp) :
  t0 < t1 →
  calculate_working_seconds_sql v t0 t1 a = 0
  ∨ calculate_working_seconds_sql v t0 t1 a = TIMESTAMP_DIFF_SECOND t1 t0.
Proof.
  intros _. destruct (udf_cases v a t0 t1) as [H|(_ & _ & w & _ & _ & _ & H)]; auto.
Qed.

Lemma all_or_nothing_five_minutes :
  calculate_working_seconds_sql UdfUtc mon_10_00
    mon_10_05 weekdays_nine_to_six = 0
  ∨ calculate_working_seconds_sql UdfUtc mon_10_00
      mon_10_05 weekdays_nine_to_six
    = TIMESTAMP_DIFF_SECOND mon_10_05 mon_10_00.
Proof. apply (all_or_nothing UdfUtc). reflexivity. Defined.

(** ** The properties of the schedule resolvers *)

Lemma not_empty_length {A} (l : list A) : (0 < length l)%nat ↔ l ≠ [].
Proof. destruct l; simpl; split; try done; lia. Qed.

(** What the loop body gives a user with self entries. *)
Lemma resolve_user_self (defaults wh : list WorkingHours.row) (um : UserMapping.row) :
  filter (scoped "self" (UserMapping.user_id um)) wh ≠ [] →
  resolve_user defaults wh um
  = {| Resolved.user_id := UserMapping.user_id um;
       Resolved.org_id := UserMapping.org_id um;
       Resolved.team_id := UserMapping.team_id um;
       Resolved.type := "self";
       Resolved.working_hours := filter (scoped "self" (UserMapping.user_id um)) wh |}.
Proof.
  intros Hne. unfold resolve_user.
  destruct (decide (0 < length _)%nat) as [|Hn]; [done|].
  by apply not_empty_length in Hne.
Qed.

(** What the loop body gives a user without self entries whose team has
    entries: exactly the entries of scope team with the user's [team_id]. *)
Lemma resolve_user_team (defaults wh : list WorkingHours.row) (um : UserMapping.row) :
  filter (scoped "self" (UserMapping.user_id um)) wh = [] →
  filter (scoped "team" (UserMapping.team_id um)) wh ≠ [] →
  resolve_user defaults wh um
  = {| Resolved.user_id := UserMapping.user_id um;
       Resolved.org_id := UserMapping.org_id um;
       Resolved.team_id := UserMapping.team_id um;
       Resolved.type := "team";
       Resolved.working_hours := filter (scoped "team" (UserMapping.team_id um)) wh |}.
Proof.
  intros He Hne. unfold resolve_user. rewrite He. simpl.
  destruct (decide (0 < 0)%nat); [lia|].
  destruct (decide (0 < length _)%nat) as [|Hn]; [done|].
  by apply not_empty_length in Hne.
Qed.

Lemma resolve_user_user_id (defaults wh : list WorkingHours.row) (um : UserMapping.row) :
  Resolved.user_id (resolve_user defaults wh um) = UserMapping.user_id um.
Proof.
  unfold resolve_user. by repeat (destruct (decide _)).
Qed.

(** The loop of bigQueryService.js pushes one entry per user mapping. *)
Lemma BigQueryService_getAll_steps (wh : list WorkingHours.row)
    (ums : list UserMapping.row) (results : list Resolved.t) :
  foldl (λ results userMapping,
           results ++ [resolve_user BigQueryService.default_working_hours wh userMapping])
        results ums
  = results ++ (resolve_user BigQueryService.default_working_hours wh <$> ums).
Proof.
  revert results. induction ums as [|um ums IH]; intros results; simpl.
  - by rewrite app_nil_r.
  - by rewrite IH, <- app_assoc.
Qed.

Lemma BigQueryService_getAll_map (ums : list UserMapping.row) (wh : list WorkingHours.row) :
  BigQueryService.getAllWorkingHoursConfig ums wh
  = resolve_user BigQueryService.default_working_hours wh <$> ums.
Proof. apply BigQueryService_getAll_steps. Qed.

(** The loop of analyticsService.js pushes one entry per first mapping of
    a user. *)
Lemma AnalyticsService_getAll_steps (wh : list WorkingHours.row)
    (ums : list UserMapping.row) (results : list Resolved.t) (seen : gset (option Z)) :
  (foldl (AnalyticsService.getAll_step wh) (results, seen) ums).1
  = results ++ (resolve_user AnalyticsService.default_working_hours wh
                <$> first_per_user seen ums).
Proof.
  revert results seen. induction ums as [|um ums IH]; intros results seen; simpl.
  - by rewrite app_nil_r.
  - destruct (decide (UserMapping.user_id um ∈ seen)); rewrite IH; [done|].
    simpl. by rewrite <- app_assoc.
Qed.

Lemma AnalyticsService_getAll_map (ums : list UserMapping.row) (wh : list WorkingHours.row) :
  AnalyticsService.getAllWorkingHoursConfig ums wh
  = resolve_user AnalyticsService.default_working_hours wh <$> first_per_user ∅ ums.
Proof. unfold AnalyticsService.getAllWorkingHoursConfig. by rewrite AnalyticsService_getAll_steps. Qed.

(** An entry of a list of resolved users that has self entries is the same
    whatever else the table holds. *)
Lemma resolved_self_stable (defaults wh1 wh2 : list WorkingHours.row)
    (ums : list UserMapping.row) (i : nat) (r : Resolved.t) :
  (resolve_user defaults wh1 <$> ums) !! i = Some r →
  filter (scoped "self" (Resolved.user_id r)) wh1 ≠ [] →
  filter (scoped "self" (Resolved.user_id r)) wh1
    = filter (scoped "self" (Resolved.user_id r)) wh2 →
  (resolve_user defaults wh2 <$> ums) !! i = Some r
  ∧ Resolved.type r = "self"
  ∧ Resolved.working_hours r = filter (scoped "self" (Resolved.user_id r)) wh1.
Proof.
  rewrite !list_lookup_fmap. destruct (ums !! i) as [um|]; [|done]. simpl.
  intros [= <-]. rewrite resolve_user_user_id. intros Hne Heq.
  rewrite (resolve_user_self _ wh2) by (by rewrite <- Heq).
  rewrite (resolve_user_self _ wh1) by done. rewrite Heq. done.
Qed.

(** C6: when a user has at least one entry of scope self, what either
    resolver returns for that user is the user's self entries, tagged
    self, whatever the rest of the table (team, organisation and other
    users' entries) holds. *)
Theorem self_entries_decide (wh1 wh2 : list WorkingHours.row) (user : option Z) :
  filter (scoped "self" user) wh1 ≠ [] →
  filter (scoped "self" user) wh1 = filter (scoped "self" user) wh2 →
  (∀ userMapping1 userMapping2 org,
     BigQueryService.getWorkingHoursConfig wh1 userMapping1 user org
     = BigQueryService.getWorkingHoursConfig wh2 userMapping2 user org
     ∧ BigQueryService.getWorkingHoursConfig wh1 userMapping1 user org
       = {| Config.source := "self";
            Config.workingHours := filter (scoped "self" user) wh1 |})
  ∧ (∀ userMappings i r,
       Resolved.user_id r = user →
       BigQueryService.getAllWorkingHoursConfig userMappings wh1 !! i = Some r →
       BigQueryService.getAllWorkingHoursConfig userMappings wh2 !! i = Some r
       ∧ Resolved.type r = "self"
       ∧ Resolved.working_hours r = filter (scoped "self" user) wh1)
  ∧ (∀ userMappings i r,
       Resolved.user_id r = user →
       AnalyticsService.getAllWorkingHoursConfig userMappings wh1 !! i = Some r →
       AnalyticsService.getAllWorkingHoursConfig userMappings wh2 !! i = Some r
       ∧ Resolved.type r = "self"
       ∧ Resolved.working_hours r = filter (scoped "self" user) wh1).
Proof.
  intros Hne Heq. split; [|split].
  - intros um1 um2 org. unfold BigQueryService.getWorkingHoursConfig.
    rewrite <- Heq.
    destruct (decide (0 < length _)%nat) as [|Hn]; [done|].
    by apply not_empty_length in Hne.
  - intros ums i r <-. rewrite !BigQueryService_getAll_map. intros Hr.
    by apply resolved_self_stable.
  - intros ums i r <-. rewrite !AnalyticsService_getAll_map. intros Hr.
    by apply resolved_self_stable.
Qed.

(** Scenario S5: with the team and organisation entries or without them,
    user 14024 resolves to the one self entry. *)
Lemma self_entries_decide_S5 :
  filter (scoped "self" (Some 14024)) [self_monday; team_monday; org_monday] ≠ []
  ∧ BigQueryService.getWorkingHoursConfig [self_monday; team_monday; org_monday]
      [user_14024] (Some 14024) (Some 2)
    = BigQueryService.getWorkingHoursConfig [self_monday] [user_14024] (Some 14024) (Some 2)
  ∧ BigQueryService.getWorkingHoursConfig [self_monday; team_monday; org_monday]
      [user_14024] (Some 14024) (Some 2)
    = {| Config.source := "self"; Config.workingHours := [self_monday] |}.
Proof.
  assert (Hne : filter (scoped "self" (Some 14024)) [self_monday; team_monday; org_monday] ≠ [])
    by (vm_compute; discriminate).
  split; [exact Hne|].
  destruct (self_entries_decide [self_monday; team_monday; org_monday] [self_monday]
              (Some 14024) Hne eq_refl) as [H _].
  exact (H [user_14024] [user_14024] (Some 2)).
Defined.

(** In [getAllWorkingHoursConfig] of both services a user
    without self entries whose team has entries gets exactly the entries
    of scope team with the [team_id] of the user's mapping. *)
Lemma getAll_selects_team (userMappings : list UserMapping.row)
    (wh : list WorkingHours.row) (i : nat) (um : UserMapping.row) :
  filter (scoped "self" (UserMapping.user_id um)) wh = [] →
  filter (scoped "team" (UserMapping.team_id um)) wh ≠ [] →
  (userMappings !! i = Some um →
   ∃ r, BigQueryService.getAllWorkingHoursConfig userMappings wh !! i = Some r
        ∧ Resolved.type r = "team"
        ∧ Resolved.working_hours r = filter (scoped "team" (UserMapping.team_id um)) wh)
  ∧ (first_per_user ∅ userMappings !! i = Some um →
     ∃ r, AnalyticsService.getAllWorkingHoursConfig userMappings wh !! i = Some r
          ∧ Resolved.type r = "team"
          ∧ Resolved.working_hours r = filter (scoped "team" (UserMapping.team_id um)) wh).
Proof.
  intros He Hne.
  rewrite BigQueryService_getAll_map, AnalyticsService_getAll_map, !list_lookup_fmap.
  split; intros ->; simpl; eexists; (split; [done|]);
    by rewrite resolve_user_team.
Qed.

(** C3 fails in [getWorkingHoursConfig]: its team filter compares the
    [type_id] with the user id.  User 14024 of team 9 has no self entry
    and team 9 has one, yet the result is the default schedule, where
    [getAllWorkingHoursConfig] returns the team entry. *)
Theorem getWorkingHoursConfig_misses_team :
  filter (scoped "self" (UserMapping.user_id user_14024)) [team_monday; org_monday] = []
  ∧ filter (scoped "team" (UserMapping.team_id user_14024)) [team_monday; org_monday]
    = [team_monday]
  ∧ BigQueryService.getWorkingHoursConfig [team_monday; org_monday] [user_14024]
      (Some 14024) (Some 2)
    = {| Config.source := "org"; Config.workingHours := [org_monday] |}
  ∧ BigQueryService.getWorkingHoursConfig [team_monday] [user_14024] (Some 14024) (Some 2)
    = {| Config.source := "default";
         Config.workingHours := BigQueryService.default_working_hours |}
  ∧ BigQueryService.getAllWorkingHoursConfig [user_14024] [team_monday; org_monday]
    = [ {| Resolved.user_id := Some 14024; Resolved.org_id := Some 2;
           Resolved.team_id := Some 9; Resolved.type := "team";
           Resolved.working_hours := [team_monday] |} ].
Proof. repeat split. Qed.

(** ** The properties of the response pairing *)

Lemma flat_map_length_filter {A B} (f : A → list B) (P : A → Prop)
    `{!∀ x, Decision (P x)} (l : list A) :
  (∀ x, x ∈ l → length (f x) = if decide (P x) then 1%nat else 0%nat) →
  length (flat_map f l) = length (filter P l).
Proof.
  induction l as [|x l IH]; intros Hf; [done|].
  simpl. rewrite length_app, Hf by left. rewrite filter_cons.
  rewrite IH by (intros; apply Hf; by right).
  by destruct (decide (P x)).
Qed.

Section BackwardScan.
Context (g : list Message.t).

Lemma hasOutgoingBetween_true (j i k : nat) :
  (j + 1 ≤ k < i)%nat →
  Message.direction <$> g !! k = Some OUTGOING →
  hasOutgoingBetween g j i = true.
Proof.
  intros Hk Hout. unfold hasOutgoingBetween. apply existsb_exists.
  exists k. split; [apply in_seq; lia|]. by apply bool_decide_eq_true.
Qed.

Lemma hasOutgoingBetween_next (j : nat) : hasOutgoingBetween g j (S j) = false.
Proof.
  unfold hasOutgoingBetween. by replace (S j - (j + 1))%nat with 0%nat by lia.
Qed.

(** An outgoing message right before [i] stops every earlier incoming
    message from being paired with [i]. *)
Lemma scan_back_blocked (i n : nat) :
  (0 < i)%nat →
  Message.direction <$> g !! (i - 1)%nat = Some OUTGOING →
  (n ≤ i - 1)%nat →
  scan_back g i n = None.
Proof.
  intros Hi Hout. induction n as [|j IH]; intros Hn; [done|]. simpl.
  rewrite IH by lia.
  rewrite (hasOutgoingBetween_true j i (i - 1)) by (done || lia).
  by destruct (bool_decide _).
Qed.

(** The scan from [i] ends at [i - 1] or nowhere. *)
Lemma scan_back_spec (i : nat) :
  (i < length g)%nat →
  scan_back g i i
  = if decide ((0 < i)%nat ∧ Message.direction <$> g !! (i - 1)%nat = Some INCOMING)
    then Some (i - 1)%nat else None.
Proof.
  intros Hi. destruct i as [|j].
  { case_decide as H; [destruct H; lia|done]. }
  cbn [scan_back]. replace (S j - 1)%nat with j by lia.
  rewrite hasOutgoingBetween_next.
  destruct (g !! j) as [m|] eqn:Hj; [|apply lookup_ge_None in Hj; lia].
  simpl. destruct (Message.direction m) eqn:Hd.
  - rewrite bool_decide_eq_true_2 by done.
    case_decide as H; [done|]. destruct H. split; [lia|done].
  - rewrite bool_decide_eq_false_2 by done.
    rewrite scan_back_blocked; [|lia| |lia].
    + case_decide as H; [|done]. by destruct H as [_ [=]].
    + replace (S j - 1)%nat with j by lia. by rewrite Hj; simpl; rewrite Hd.
Qed.

(** One response is pushed at [i] exactly when an incoming message is
    right before an outgoing one at [i]. *)
Lemma response_at_length (head_date : string) (user org : option Z) (i : nat) :
  (i < length g)%nat →
  length (response_at head_date user org g i)
  = if decide (adjacent_at INCOMING OUTGOING (Message.direction <$> g) i)
    then 1%nat else 0%nat.
Proof.
  intros Hi. unfold response_at.
  destruct (g !! i) as [cur|] eqn:Hcur; [|apply lookup_ge_None in Hcur; lia].
  case_decide as Hadj; unfold adjacent_at in Hadj;
    rewrite !list_lookup_fmap, Hcur in Hadj; simpl in Hadj.
  - destruct Hadj as (H0 & Hp & [= Hd]).
    rewrite bool_decide_eq_true_2, scan_back_spec by done.
    case_decide as H; [|by destruct H].
    by destruct (g !! (i - 1)%nat).
  - case_bool_decide as Hd; [|done].
    rewrite scan_back_spec by done.
    case_decide as H; [|done]. destruct Hadj. destruct H. by rewrite Hd.
Qed.

End BackwardScan.

(** The sort: a permutation, in ascending order, that leaves a sorted list
    as it is. *)
Section SortBy.
Context {A : Type} (key : A → Z).

Lemma insert_by_Permutation (x : A) (l : list A) : insert_by key x l ≡ₚ x :: l.
Proof.
  induction l as [|y l IH]; simpl; [done|].
  destruct (key x <=? key y); [done|]. rewrite IH. apply Permutation_swap.
Qed.

Lemma sort_by_Permutation (l : list A) : sort_by key l ≡ₚ l.
Proof.
  induction l as [|x l IH]; simpl; [done|].
  unfold sort_by in *. simpl. by rewrite insert_by_Permutation, IH.
Qed.

Lemma insert_by_Sorted (x : A) (l : list A) :
  Sorted (λ a b, key a <= key b) l → Sorted (λ a b, key a <= key b) (insert_by key x l).
Proof.
  induction 1 as [|y l Hl IH Hhd]; simpl.
  - repeat constructor.
  - destruct (Z.leb_spec (key x) (key y)).
    + repeat constructor; done.
    + constructor; [done|]. destruct Hhd as [|z l' Hz]; simpl.
      * constructor. lia.
      * destruct (key x <=? key z); constructor; lia.
Qed.

Lemma sort_by_Sorted (l : list A) : Sorted (λ a b, key a <= key b) (sort_by key l).
Proof.
  induction l as [|x l IH]; [constructor|]. by apply insert_by_Sorted.
Qed.

Lemma Sorted_adjacent (l : list A) (i : nat) (a b : A) :
  Sorted (λ a b, key a <= key b) l →
  l !! i = Some a → l !! S i = Some b → key a <= key b.
Proof.
  intros Hl. revert i. induction Hl as [|y l Hl IH Hhd]; intros i; [done|].
  destruct i as [|i]; simpl.
  - intros [= ->] Hb. destruct Hhd as [|z l' Hz]; [done|]. by injection Hb as <-.
  - apply IH.
Qed.

End SortBy.

Lemma Sorted_sort_by_id {A} (key : A → Z) (l : list A) :
  Sorted (λ a b, key a <= key b) l → sort_by key l = l.
Proof.
  induction 1 as [|x l Hl IH Hhd]; [done|].
  unfold sort_by in *. simpl. rewrite IH.
  destruct Hhd as [|y l' Hy]; simpl; [done|].
  by destruct (Z.leb_spec (key x) (key y)); [|lia].
Qed.

(** The backward scan of [calculateResponseTimes] pairs as many messages
    as the sorted group has (INCOMING, OUTGOING) adjacencies. *)
Lemma responseTimesForGroup_length (user org : option Z) (group : list Message.t) :
  length (responseTimesForGroup user org group)
  = count_adjacent INCOMING OUTGOING
      (Message.direction <$> sort_by Message.message_timestamp group).
Proof.
  unfold responseTimesForGroup, count_adjacent. rewrite length_fmap.
  apply flat_map_length_filter. intros i Hi%list_elem_of_In%in_seq.
  apply response_at_length. lia.
Qed.

(** The count of adjacencies, position by position, follows the list. *)
Lemma filter_seq_shift (P Q : nat → Prop) `{!∀ i, Decision (P i)} `{!∀ i, Decision (Q i)}
    (s n : nat) :
  (∀ i, (s ≤ i)%nat → P (S i) ↔ Q i) →
  length (filter P (seq (S s) n)) = length (filter Q (seq s n)).
Proof.
  revert s. induction n as [|n IH]; intros s HPQ; [done|].
  cbn [seq]. rewrite !filter_cons.
  specialize (IH (S s)). cbn [seq] in IH.
  destruct (decide (P (S s))) as [HP|HP], (decide (Q s)) as [HQ|HQ]; simpl;
    try (rewrite IH by (intros; apply HPQ; lia); done).
  - destruct HQ. apply HPQ; [lia|done].
  - destruct HP. apply HPQ; [lia|done].
Qed.

Lemma count_adjacent_short (d1 d2 : direction) (ds : list direction) :
  (length ds ≤ 1)%nat → count_adjacent d1 d2 ds = 0%nat.
Proof.
  destruct ds as [|x [|y ds]]; simpl; intros; [done| |lia].
  unfold count_adjacent. cbn [length seq]. rewrite filter_cons.
  case_decide as Hadj; [destruct Hadj; lia|done].
Qed.

Lemma count_adjacent_cons (d1 d2 x y : direction) (ds : list direction) :
  count_adjacent d1 d2 (x :: y :: ds)
  = ((if decide (x = d1 ∧ y = d2) then 1 else 0) + count_adjacent d1 d2 (y :: ds))%nat.
Proof.
  assert (Hshift : length (filter (adjacent_at d1 d2 (x :: y :: ds)) (seq 2 (length ds)))
                   = length (filter (adjacent_at d1 d2 (y :: ds)) (seq 1 (length ds)))).
  { apply filter_seq_shift. intros i Hi. unfold adjacent_at.
    destruct i as [|i]; [lia|]. simpl. replace (i - 0)%nat with i by lia.
    split; intros (? & ? & ?); repeat split; try lia; done. }
  unfold count_adjacent. cbn [length seq]. rewrite !filter_cons.
  destruct (decide (adjacent_at d1 d2 (x :: y :: ds) 0)) as [[? _]|_]; [lia|].
  destruct (decide (adjacent_at d1 d2 (y :: ds) 0)) as [[? _]|_]; [lia|].
  destruct (decide (adjacent_at d1 d2 (x :: y :: ds) 1)) as [Hadj|Hadj],
    (decide (x = d1 ∧ y = d2)) as [Hxy|Hxy]; simpl; rewrite Hshift; try done.
  - destruct Hxy. destruct Hadj as (_ & [= ?] & [= ?]). done.
  - destruct Hadj. destruct Hxy as [-> ->]. repeat split. lia.
Qed.



(** A row gives a response event exactly when it passes the [WHERE]. *)
Lemma omap_response_event_length (rows : list Lagged.t) :
  length (omap response_event rows) = length (filter is_response rows).
Proof.
  induction rows as [|r rows IH]; [done|].
  cbn [omap list_omap]. rewrite filter_cons. unfold response_event at 1.
  destruct (decide (is_response r)) as [Hr|Hr].
  - destruct Hr as [_ Hp]. unfold Lagged.prev_direction in Hp.
    destruct (Lagged.prev r); [|done]. simpl. f_equal. apply IH.
  - destruct (Lagged.prev r); apply IH.
Qed.










(** ** The properties of the aggregates *)

Lemma filter_ext_in {A} (P Q : A → Prop) `{!∀ x, Decision (P x)} `{!∀ x, Decision (Q x)}
    (l : list A) :
  (∀ x, x ∈ l → P x ↔ Q x) → filter P l = filter Q l.
Proof.
  induction l as [|x l IH]; intros HPQ; [done|].
  rewrite !filter_cons, IH by (intros; apply HPQ; by right).
  destruct (decide (P x)) as [HP|HP], (decide (Q x)) as [HQ|HQ]; try done.
  - destruct HQ. apply HPQ; [left|done].
  - destruct HP. apply HPQ; [left|done].
Qed.

Lemma lag_rows_event (prev : option Event.t) (window : list Event.t) (r : Lagged.t) :
  r ∈ lag_rows prev window → Lagged.event r ∈ window.
Proof.
  revert prev. induction window as [|e rest IH]; intros prev; simpl.
  - by intros ?%elem_of_nil.
  - intros [->|Hr]%elem_of_cons; [left|right; eauto].
Qed.





(** [AVG(CASE WHEN x > 0 THEN x END)], with [NULL] turned into 0, is the
    mean over the values that are not zero when no value is negative. *)
Lemma positive_values (xs : list Z) :
  (∀ x, x ∈ xs → 0 <= x) →
  omap id ((λ x, if 0 <? x then Some x else None) <$> xs) = filter (λ x, x ≠ 0) xs.
Proof.
  induction xs as [|x xs IH]; intros Hpos; [done|].
  rewrite fmap_cons. cbn [omap list_omap]. rewrite filter_cons.
  fold (omap id ((λ x, if 0 <? x then Some x else None) <$> xs)).
  rewrite IH by (intros; apply Hpos; by right).
  pose proof (Hpos x ltac:(left)).
  destruct (Z.ltb_spec 0 x), (decide (x ≠ 0)); simpl; try done; lia.
Qed.

Lemma AVG_positive_values (xs : list Z) :
  (∀ x, x ∈ xs → 0 <= x) →
  default 0%Q (AVG ((λ x, if 0 <? x then Some x else None) <$> xs))
  = mean_ignoring_zeros xs.
Proof.
  intros Hpos. unfold AVG, mean_ignoring_zeros. rewrite positive_values by done.
  by destruct (filter _ xs).
Qed.

Lemma udf_arguments_no_row : udf_arguments None = all_closed.
Proof. reflexivity. Qed.

Lemma working_seconds_nonneg (v : udf_revision) (q : lifetime_query)
    (working_hours : list WorkingHoursUtc.row) (re : ResponseEvent.t) :
  0 <= working_seconds v q working_hours re.
Proof. apply udf_nonneg. Qed.

Lemma mean_ignoring_zeros_all_zero (xs : list Z) :
  (∀ x, x ∈ xs → x = 0) → mean_ignoring_zeros xs = 0%Q.
Proof.
  intros Hz. unfold mean_ignoring_zeros.
  destruct (filter _ xs) as [|y ys] eqn:Hf; [done|].
  assert (Hy : y ∈ filter (λ x, x ≠ 0) xs) by (rewrite Hf; left).
  apply list_elem_of_filter in Hy as [Hy ?%Hz]. done.
Qed.

(** In the FIXED query, for every key, the emitted
    [average_response_time] is the mean of the working seconds of the
    response pairs of the key that are not zero, and 0 without one. *)
Lemma average_response_time_fixed_spec (v : udf_revision)
    (message_events : list Event.t) (working_hours : list WorkingHoursUtc.row)
    (k : chat_key) :
  average_response_time_fixed v message_events working_hours k
  = mean_ignoring_zeros
      (working_seconds v Fixed working_hours <$> response_group message_events k).
Proof.
  unfold average_response_time_fixed.
  destruct (key_user_id k) as [u|] eqn:Hu, (key_org_id k) as [o|] eqn:Ho.
  - unfold response_time_by_chat.
    rewrite <- AVG_positive_values
      by (intros x (re & -> & _)%list_elem_of_fmap; apply working_seconds_nonneg).
    by rewrite <- list_fmap_compose.
  - rewrite mean_ignoring_zeros_all_zero; [done|].
    intros x (re & -> & [[_ Hre] _]%list_elem_of_filter)%list_elem_of_fmap.
    unfold working_seconds. rewrite Hre, Ho.
    destruct (ResponseEvent.user_id re); apply udf_all_closed.
  - rewrite mean_ignoring_zeros_all_zero; [done|].
    intros x (re & -> & [[Hre _] _]%list_elem_of_filter)%list_elem_of_fmap.
    unfold working_seconds. rewrite Hre, Hu. apply udf_all_closed.
  - rewrite mean_ignoring_zeros_all_zero; [done|].
    intros x (re & -> & [[Hre _] _]%list_elem_of_filter)%list_elem_of_fmap.
    unfold working_seconds. rewrite Hre, Hu. apply udf_all_closed.
Qed.

(** C4 fails in the original query: it averages every pair.  With
    09:00-18:00 every day, the reply of 10:05 to 10:00 counts 300 seconds
    and that of 20:01 to 20:00 none; the mean over the non-zero values is
    300, which the FIXED query emits, and the original query emits 150.
    Without any pair the original query emits [NULL], not 0. *)
Theorem original_query_averages_zeros :
  working_seconds UdfUtc Original nine_to_six_every_day
    <$> response_events Original two_replies (key_chat_id chat_1) = [300; 0]
  ∧ Qred (mean_ignoring_zeros [300; 0]) = 300%Q
  ∧ Qred <$> average_response_time_original UdfUtc two_replies nine_to_six_every_day chat_1
    = Some 150%Q
  ∧ Qred (average_response_time_fixed UdfUtc two_replies nine_to_six_every_day chat_1)
    = 300%Q
  ∧ average_response_time_original UdfUtc [] nine_to_six_every_day chat_1 = None
  ∧ average_response_time_fixed UdfUtc [] nine_to_six_every_day chat_1 = 0%Q.
Proof. vm_compute. repeat split. Qed.

(** ** Further properties of the UDF *)

(** The weekday chain reads the two columns of the day-of-week number it
    is given and no others. *)
Lemma weekday_branch_day_columns (v : udf_revision) (dow : Z) (a : working_hours_args) :
  weekday_branch v dow a
  = when_day v dow dow (day_columns a dow).1 (day_columns a dow).2.
Proof.
  unfold weekday_branch, day_columns, when_day.
  destruct (Z.eqb_spec dow 2) as [->|]; [simpl; by repeat case_match|].
  destruct (Z.eqb_spec dow 3) as [->|]; [simpl; by repeat case_match|].
  destruct (Z.eqb_spec dow 4) as [->|]; [simpl; by repeat case_match|].
  destruct (Z.eqb_spec dow 5) as [->|]; [simpl; by repeat case_match|].
  destruct (Z.eqb_spec dow 6) as [->|]; [simpl; by repeat case_match|].
  destruct (Z.eqb_spec dow 7) as [->|]; [simpl; by repeat case_match|].
  destruct (Z.eqb_spec dow 1) as [->|]; [simpl; by repeat case_match|].
  simpl. by rewrite Z.eqb_refl.
Qed.

(** X1: the result depends on the fourteen arguments only through the two
    columns of the weekday of [start_timestamp]; the hours of the other six
    days are never read. *)
Theorem udf_reads_one_weekday (v : udf_revision) (a a' : working_hours_args)
    (t0 t1 : timestamp) :
  day_columns a (DAYOFWEEK (udf_zone v) t0) = day_columns a' (DAYOFWEEK (udf_zone v) t0) →
  calculate_working_seconds_sql v t0 t1 a = calculate_working_seconds_sql v t0 t1 a'.
Proof.
  intros Hcols. unfold calculate_working_seconds_sql.
  by rewrite !weekday_branch_day_columns, Hcols.
Qed.

Lemma udf_reads_one_weekday_monday :
  calculate_working_seconds_sql UdfUtc mon_10_00 mon_10_05 weekdays_nine_to_six
  = calculate_working_seconds_sql UdfUtc mon_10_00 mon_10_05
      (same_hours_every nine_to_six None None None None None None).
Proof. apply (udf_reads_one_weekday UdfUtc). reflexivity. Defined.

(** X2: the test for a 00:00:00-00:00:00 day changes no result: the UTC
    revision with the test and the one without it are the same function. *)
Theorem closed_day_test_changes_nothing (a : working_hours_args) (t0 t1 : timestamp) :
  calculate_working_seconds_sql UdfUtc t0 t1 a
  = calculate_working_seconds_sql UdfNoClosedTest t0 t1 a.
Proof.
  unfold calculate_working_seconds_sql. simpl udf_zone.
  destruct (Z.geb_spec t0 t1) as [|Hlt]; [done|].
  destruct (Z.eqb_spec (DATE UTC t0) (DATE UTC t1)) as [Hd|]; [|done].
  rewrite !weekday_branch_day_columns. unfold when_day. rewrite Z.eqb_refl.
  destruct (day_columns a (DAYOFWEEK UTC t0)) as [[s|] [e|]]; simpl; try done.
  change (TIME_of 0 0 0) with 0.
  destruct (Z.eqb_spec s 0) as [->|], (Z.eqb_spec e 0) as [->|]; simpl; try done.
  unfold within_window. simpl.
  pose proof (same_date_TIME_diff UTC t0 t1 Hd). pose proof (TIME_range UTC t0).
  destruct (Z.gtb_spec (TIME UTC t1) 0); [|lia].
  by rewrite orb_true_r.
Qed.

Lemma DATE_add_weeks (z : zone) (t : timestamp) (n : Z) :
  DATE z (t + n * MICROS_PER_WEEK) = DATE z t + 7 * n.
Proof.
  unfold DATE, MICROS_PER_WEEK.
  replace (t + n * (7 * MICROS_PER_DAY) + utc_offset z)
    with (t + utc_offset z + (7 * n) * MICROS_PER_DAY) by lia.
  by rewrite Z.div_add.
Qed.

Lemma TIME_add_weeks (z : zone) (t : timestamp) (n : Z) :
  TIME z (t + n * MICROS_PER_WEEK) = TIME z t.
Proof.
  unfold TIME, MICROS_PER_WEEK.
  replace (t + n * (7 * MICROS_PER_DAY) + utc_offset z)
    with (t + utc_offset z + (7 * n) * MICROS_PER_DAY) by lia.
  by rewrite Z.mod_add.
Qed.

Lemma DAYOFWEEK_add_weeks (z : zone) (t : timestamp) (n : Z) :
  DAYOFWEEK z (t + n * MICROS_PER_WEEK) = DAYOFWEEK z t.
Proof.
  unfold DAYOFWEEK. rewrite DATE_add_weeks.
  replace (DATE z t + 7 * n + 4) with (DATE z t + 4 + n * 7) by lia.
  by rewrite Z.mod_add.
Qed.

(** X3: the function is periodic in the week: moving both instants by the
    same whole number of weeks, forward or back, leaves the result as it
    is. *)
Theorem udf_weekly_periodic (v : udf_revision) (a : working_hours_args)
    (t0 t1 : timestamp) (n : Z) :
  calculate_working_seconds_sql v (t0 + n * MICROS_PER_WEEK) (t1 + n * MICROS_PER_WEEK) a
  = calculate_working_seconds_sql v t0 t1 a.
Proof.
  unfold calculate_working_seconds_sql, within_window, TIMESTAMP_DIFF_SECOND.
  rewrite !DATE_add_weeks, !TIME_add_weeks, DAYOFWEEK_add_weeks.
  replace (t1 + n * MICROS_PER_WEEK - (t0 + n * MICROS_PER_WEEK)) with (t1 - t0) by lia.
  replace (t0 + n * MICROS_PER_WEEK >=? t1 + n * MICROS_PER_WEEK) with (t0 >=? t1)
    by (destruct (Z.geb_spec t0 t1), (Z.geb_spec (t0 + n * MICROS_PER_WEEK)
                                                 (t1 + n * MICROS_PER_WEEK)); lia || done).
  replace (DATE (udf_zone v) t0 + 7 * n =? DATE (udf_zone v) t1 + 7 * n)
    with (DATE (udf_zone v) t0 =? DATE (udf_zone v) t1); [done|].
  destruct (Z.eqb_spec (DATE (udf_zone v) t0) (DATE (udf_zone v) t1)),
    (Z.eqb_spec (DATE (udf_zone v) t0 + 7 * n) (DATE (udf_zone v) t1 + 7 * n)); lia || done.
Qed.

(** X4: when an interval gets a non-zero result, every interval inside it
    is counted whole. *)
Theorem counted_interval_subintervals (v : udf_revision) (a : working_hours_args)
    (t0 t1 s e : timestamp) :
  t0 <= s → s < e → e <= t1 →
  calculate_working_seconds_sql v t0 t1 a ≠ 0 →
  calculate_working_seconds_sql v s e a = TIMESTAMP_DIFF_SECOND e s.
Proof.
  intros H0 Hse H1 Hne.
  destruct (udf_cases v a t0 t1) as [|(Hlt & Hd & w & Hw & Hw0 & Hw1 & _)]; [done|].
  pose proof (DATE_mono (udf_zone v) t0 s H0).
  pose proof (DATE_mono (udf_zone v) s e ltac:(lia)).
  pose proof (DATE_mono (udf_zone v) e t1 H1).
  assert (Hds : DATE (udf_zone v) s = DATE (udf_zone v) t0) by lia.
  assert (Hde : DATE (udf_zone v) e = DATE (udf_zone v) t1) by lia.
  pose proof (same_date_TIME_diff (udf_zone v) t0 s ltac:(done)).
  pose proof (same_date_TIME_diff (udf_zone v) e t1 ltac:(done)).
  apply (udf_counted v a s e w); try lia.
  unfold DAYOFWEEK. rewrite Hds. exact Hw.
Qed.

Lemma counted_interval_subintervals_monday :
  calculate_working_seconds_sql UdfUtc mon_10_00 mon_10_05 weekdays_nine_to_six
  = TIMESTAMP_DIFF_SECOND mon_10_05 mon_10_00.
Proof.
  apply (counted_interval_subintervals UdfUtc weekdays_nine_to_six mon_10_00 mon_17_00);
    vm_compute; first [reflexivity | discriminate].
Defined.

(** X5: widening the window of the weekday of [start_timestamp] (an
    earlier start, a later end) never lowers the result. *)
Theorem wider_window_counts_no_less (v : udf_revision) (a a' : working_hours_args)
    (t0 t1 : timestamp) (s e s' e' : time) :
  day_columns a (DAYOFWEEK (udf_zone v) t0) = (Some s, Some e) →
  day_columns a' (DAYOFWEEK (udf_zone v) t0) = (Some s', Some e') →
  s' <= s → e <= e' →
  calculate_working_seconds_sql v t0 t1 a <= calculate_working_seconds_sql v t0 t1 a'.
Proof.
  intros Ha Ha' Hs He.
  destruct (udf_cases v a t0 t1) as [->|(Hlt & Hd & w & Hw & Hw0 & Hw1 & ->)];
    [apply udf_nonneg|].
  rewrite weekday_branch_day_columns, Ha in Hw.
  apply when_day_Some in Hw as (Hs1 & He1 & _). simpl in Hs1, He1.
  injection Hs1 as Hs1. injection He1 as He1.
  pose proof (same_date_TIME_diff _ _ _ Hd). pose proof (TIME_range (udf_zone v) t0).
  rewrite (udf_counted v a' t0 t1 (s', e')); [lia|done|done| |simpl; lia|simpl; lia].
  rewrite weekday_branch_day_columns, Ha'. unfold when_day. rewrite Z.eqb_refl. simpl.
  change (TIME_of 0 0 0) with 0.
  destruct (Z.eqb_spec s' 0), (Z.eqb_spec e' 0); rewrite ?andb_false_r; try done.
  lia.
Qed.

Lemma wider_window_counts_no_less_monday :
  calculate_working_seconds_sql UdfUtc mon_10_00 mon_17_00
    (same_hours_every (Some (TIME_of 11 0 0, TIME_of 16 0 0)) None None None None None None)
  <= calculate_working_seconds_sql UdfUtc mon_10_00 mon_17_00 weekdays_nine_to_six.
Proof.
  apply (wider_window_counts_no_less UdfUtc _ _ _ _
           (TIME_of 11 0 0) (TIME_of 16 0 0) (TIME_of 9 0 0) (TIME_of 18 0 0));
    try reflexivity; vm_compute; discriminate.
Defined.

(** ** Further properties of the schedule resolvers *)

(** What the loop body yields, scope by scope. *)
Lemma resolve_user_cases (defaults wh : list WorkingHours.row) (um : UserMapping.row) :
  let selfHours := filter (scoped "self" (UserMapping.user_id um)) wh in
  let teamHours := filter (scoped "team" (UserMapping.team_id um)) wh in
  let orgHours := filter (scoped "org" (UserMapping.org_id um)) wh in
  let r := resolve_user defaults wh um in
  Resolved.user_id r = UserMapping.user_id um
  ∧ Resolved.team_id r = UserMapping.team_id um
  ∧ Resolved.org_id r = UserMapping.org_id um
  ∧ ((selfHours ≠ [] ∧ Resolved.type r = "self" ∧ Resolved.working_hours r = selfHours)
     ∨ (selfHours = [] ∧ teamHours ≠ []
        ∧ Resolved.type r = "team" ∧ Resolved.working_hours r = teamHours)
     ∨ (selfHours = [] ∧ teamHours = [] ∧ orgHours ≠ []
        ∧ Resolved.type r = "org" ∧ Resolved.working_hours r = orgHours)
     ∨ (selfHours = [] ∧ teamHours = [] ∧ orgHours = []
        ∧ Resolved.type r = "default" ∧ Resolved.working_hours r = defaults)).
Proof.
  simpl. unfold resolve_user.
  destruct (decide (0 < length (filter (scoped "self" _) wh))%nat) as [Hs|Hs];
    [apply not_empty_length in Hs; simpl; by eauto 10|].
  destruct (decide (0 < length (filter (scoped "team" _) wh))%nat) as [Ht|Ht];
    [apply not_empty_length in Ht|].
  { simpl. repeat split. right. left.
    destruct (filter (scoped "self" _) wh); [done|simpl in Hs; lia]. }
  destruct (decide (0 < length (filter (scoped "org" _) wh))%nat) as [Ho|Ho];
    [apply not_empty_length in Ho|]; simpl; repeat split; right; right.
  - left. destruct (filter (scoped "self" _) wh); [|simpl in Hs; lia].
    destruct (filter (scoped "team" _) wh); [done|simpl in Ht; lia].
  - right. destruct (filter (scoped "self" _) wh); [|simpl in Hs; lia].
    destruct (filter (scoped "team" _) wh); [|simpl in Ht; lia].
    destruct (filter (scoped "org" _) wh); [done|simpl in Ho; lia].
Qed.

Lemma resolve_user_not_empty (defaults wh : list WorkingHours.row)
    (um : UserMapping.row) :
  defaults ≠ [] →
  Resolved.working_hours (resolve_user defaults wh um) ≠ []
  ∧ Resolved.type (resolve_user defaults wh um) ∈ ["self"; "team"; "org"; "default"].
Proof.
  intros Hd.
  destruct (resolve_user_cases defaults wh um) as (_ & _ & _ & Hcases). simpl in Hcases.
  destruct Hcases as [(? & Htype & Hhours)|[(_ & ? & Htype & Hhours)
                     |[(_ & _ & ? & Htype & Hhours)|(_ & _ & _ & Htype & Hhours)]]];
    rewrite Htype, Hhours; (split; [done|apply list_elem_of_In; simpl; tauto]).
Qed.

(** X6: every schedule a resolver returns has at least one entry, and its
    tag is one of self, team, org and default. *)
Theorem resolved_schedule_never_empty (wh : list WorkingHours.row)
    (userMappings : list UserMapping.row) :
  (∀ user org,
     let config := BigQueryService.getWorkingHoursConfig wh userMappings user org in
     Config.workingHours config ≠ []
     ∧ Config.source config ∈ ["self"; "team"; "org"; "default"])
  ∧ (∀ r, r ∈ BigQueryService.getAllWorkingHoursConfig userMappings wh
          ∨ r ∈ AnalyticsService.getAllWorkingHoursConfig userMappings wh →
          Resolved.working_hours r ≠ []
          ∧ Resolved.type r ∈ ["self"; "team"; "org"; "default"]).
Proof.
  split.
  - intros user org. unfold BigQueryService.getWorkingHoursConfig.
    repeat (destruct (decide (0 < length _)%nat) as [?%not_empty_length|]);
      simpl; (split; [done|apply list_elem_of_In; simpl; tauto]).
  - intros r Hr.
    assert (∃ defaults um, defaults ≠ [] ∧ r = resolve_user defaults wh um)
      as (defaults & um & Hd & ->).
    { rewrite BigQueryService_getAll_map, AnalyticsService_getAll_map in Hr.
      destruct Hr as [(um & -> & _)%list_elem_of_fmap|(um & -> & _)%list_elem_of_fmap];
        eexists _, um; (split; [|done]); done. }
    by apply resolve_user_not_empty.
Qed.

(** X7: in [getAllWorkingHoursConfig] of both services the scopes are
    tried in the order self, team, org: an entry is tagged team only for a
    user without self entries, org only for one without self and team
    entries, and default only when no scope has an entry; the hours are
    the entries of the scope chosen, and the seven default entries in the
    last case. *)
Theorem getAll_priority (wh : list WorkingHours.row) (userMappings : list UserMapping.row)
    (r : Resolved.t) :
  r ∈ BigQueryService.getAllWorkingHoursConfig userMappings wh
  ∨ r ∈ AnalyticsService.getAllWorkingHoursConfig userMappings wh →
  let selfHours := filter (scoped "self" (Resolved.user_id r)) wh in
  let teamHours := filter (scoped "team" (Resolved.team_id r)) wh in
  let orgHours := filter (scoped "org" (Resolved.org_id r)) wh in
  (Resolved.type r = "self" ↔ selfHours ≠ [])
  ∧ (Resolved.type r = "team" ↔ selfHours = [] ∧ teamHours ≠ [])
  ∧ (Resolved.type r = "org" ↔ selfHours = [] ∧ teamHours = [] ∧ orgHours ≠ [])
  ∧ (Resolved.type r = "default" ↔ selfHours = [] ∧ teamHours = [] ∧ orgHours = [])
  ∧ (Resolved.type r = "self" → Resolved.working_hours r = selfHours)
  ∧ (Resolved.type r = "team" → Resolved.working_hours r = teamHours)
  ∧ (Resolved.type r = "org" → Resolved.working_hours r = orgHours)
  ∧ (Resolved.type r = "default" →
     week = WorkingHours.week_day <$> Resolved.working_hours r
     ∧ ∀ e, e ∈ Resolved.working_hours r →
            WorkingHours.start_time e = "09:00:00" ∧ WorkingHours.end_time e = "18:00:00").
Proof.
  intros Hr.
  assert (∃ defaults um,
            (defaults = BigQueryService.default_working_hours
             ∨ defaults = AnalyticsService.default_working_hours)
            ∧ r = resolve_user defaults wh um) as (defaults & um & Hd & ->).
  { rewrite BigQueryService_getAll_map, AnalyticsService_getAll_map in Hr.
    destruct Hr as [(um & -> & _)%list_elem_of_fmap|(um & -> & _)%list_elem_of_fmap];
      eexists _, um; eauto. }
  destruct (resolve_user_cases defaults wh um) as (Hu & Hteam & Horg & Hcases).
  simpl in Hcases. simpl. rewrite Hu, Hteam, Horg.
  assert (Hdefault : week = WorkingHours.week_day <$> defaults
                     ∧ ∀ e, e ∈ defaults → WorkingHours.start_time e = "09:00:00"
                                         ∧ WorkingHours.end_time e = "18:00:00").
  { destruct Hd as [Hd|Hd]; rewrite Hd; (split; [done|]);
      apply Forall_forall; by repeat constructor. }
  destruct Hcases as [(Hs & Htype & Hhours)|[(Hs & Ht & Htype & Hhours)
                     |[(Hs & Ht & Ho & Htype & Hhours)|(Hs & Ht & Ho & Htype & Hhours)]]];
    rewrite Htype, Hhours, ?Hs, ?Ht, ?Ho; repeat split; try done; try (by intros [? ?]);
    try (by intros (? & ? & ?)); by apply Hdefault.
Qed.

Lemma getAll_priority_team_of_14024 :
  (resolve_user BigQueryService.default_working_hours [team_monday; org_monday] user_14024
     ∈ BigQueryService.getAllWorkingHoursConfig [user_14024] [team_monday; org_monday]
   ∨ resolve_user BigQueryService.default_working_hours [team_monday; org_monday] user_14024
     ∈ AnalyticsService.getAllWorkingHoursConfig [user_14024] [team_monday; org_monday])
  ∧ (Resolved.type
       (resolve_user BigQueryService.default_working_hours [team_monday; org_monday]
                     user_14024) = "self"
     ↔ filter (scoped "self" (Some 14024)) [team_monday; org_monday] ≠ []).
Proof.
  assert (Hr : resolve_user BigQueryService.default_working_hours [team_monday; org_monday]
                 user_14024
               ∈ BigQueryService.getAllWorkingHoursConfig [user_14024]
                   [team_monday; org_monday]
               ∨ resolve_user BigQueryService.default_working_hours
                   [team_monday; org_monday] user_14024
                 ∈ AnalyticsService.getAllWorkingHoursConfig [user_14024]
                     [team_monday; org_monday]).
  { left. rewrite BigQueryService_getAll_map. simpl. left. }
  split; [exact Hr|].
  exact (proj1 (getAll_priority [team_monday; org_monday] [user_14024] _ Hr)).
Defined.

(** X8: [getAllWorkingHoursConfig] of bigQueryService.js returns one entry
    per row of the user mapping, in the order of the rows and with their
    ids; a user mapped twice is resolved twice. *)
Theorem BigQueryService_getAll_one_per_mapping (userMappings : list UserMapping.row)
    (wh : list WorkingHours.row) :
  length (BigQueryService.getAllWorkingHoursConfig userMappings wh) = length userMappings
  ∧ ∀ i um, userMappings !! i = Some um →
      ∃ r, BigQueryService.getAllWorkingHoursConfig userMappings wh !! i = Some r
           ∧ Resolved.user_id r = UserMapping.user_id um
           ∧ Resolved.team_id r = UserMapping.team_id um
           ∧ Resolved.org_id r = UserMapping.org_id um.
Proof.
  rewrite BigQueryService_getAll_map. split; [by rewrite length_fmap|].
  intros i um Hi. rewrite list_lookup_fmap, Hi. simpl. eexists. split; [done|].
  by destruct (resolve_user_cases BigQueryService.default_working_hours wh um)
    as (? & ? & ? & _).
Qed.

Section FirstPerUser.

Lemma first_per_user_first (seen : gset (option Z)) (ums : list UserMapping.row)
    (um : UserMapping.row) :
  um ∈ first_per_user seen ums →
  (UserMapping.user_id um ∉ seen)
  ∧ ∃ l1 l2, ums = l1 ++ um :: l2
             ∧ ∀ x, x ∈ l1 → UserMapping.user_id x ≠ UserMapping.user_id um.
Proof.
  revert seen. induction ums as [|um0 rest IH]; intros seen; simpl.
  { by intros ?%elem_of_nil. }
  destruct (decide (UserMapping.user_id um0 ∈ seen)) as [Hin|Hnin].
  - intros (Hnot & l1 & l2 & -> & Hl1)%IH. split; [done|].
    exists (um0 :: l1), l2. split; [done|].
    intros x [->|Hx]%elem_of_cons; [congruence|by apply Hl1].
  - intros [->|Hum]%elem_of_cons.
    + split; [done|]. exists [], rest. split; [done|]. by intros x ?%elem_of_nil.
    + apply IH in Hum as (Hnot & l1 & l2 & -> & Hl1).
      apply not_elem_of_union in Hnot as [Hnot Hne%not_elem_of_singleton].
      split; [done|]. exists (um0 :: l1), l2. split; [done|].
      intros x [->|Hx]%elem_of_cons; [congruence|by apply Hl1].
Qed.

Lemma first_per_user_NoDup (seen : gset (option Z)) (ums : list UserMapping.row) :
  NoDup (UserMapping.user_id <$> first_per_user seen ums).
Proof.
  revert seen. induction ums as [|um0 rest IH]; intros seen; simpl; [constructor|].
  destruct (decide (UserMapping.user_id um0 ∈ seen)); [apply IH|].
  rewrite fmap_cons. constructor; [|apply IH].
  intros (um & Heq & [Hnot _]%first_per_user_first)%list_elem_of_fmap.
  apply Hnot, elem_of_union_r, elem_of_singleton. done.
Qed.

Lemma first_per_user_covers (seen : gset (option Z)) (ums : list UserMapping.row)
    (um : UserMapping.row) :
  um ∈ ums → UserMapping.user_id um ∉ seen →
  UserMapping.user_id um ∈ UserMapping.user_id <$> first_per_user seen ums.
Proof.
  revert seen. induction ums as [|um0 rest IH]; intros seen; simpl.
  { by intros ?%elem_of_nil. }
  intros Hum Hnot.
  destruct (decide (UserMapping.user_id um0 ∈ seen)) as [Hin|Hnin].
  - apply elem_of_cons in Hum as [->|Hum]; [done|by apply IH].
  - rewrite fmap_cons.
    destruct (decide (UserMapping.user_id um = UserMapping.user_id um0)) as [->|Hne];
      [left|right].
    apply elem_of_cons in Hum as [->|Hum]; [done|].
    apply IH; [done|]. by apply not_elem_of_union, conj, not_elem_of_singleton.
Qed.

End FirstPerUser.

Lemma resolve_user_ids (defaults wh : list WorkingHours.row)
    (l : list UserMapping.row) :
  Resolved.user_id <$> (resolve_user defaults wh <$> l) = UserMapping.user_id <$> l.
Proof.
  rewrite <- list_fmap_compose. apply list_fmap_ext.
  intros i um _. apply resolve_user_user_id.
Qed.

Lemma AnalyticsService_getAll_covers (userMappings : list UserMapping.row)
    (wh : list WorkingHours.row) (um : UserMapping.row) :
  um ∈ userMappings →
  ∃ r, r ∈ AnalyticsService.getAllWorkingHoursConfig userMappings wh
       ∧ Resolved.user_id r = UserMapping.user_id um
       ∧ Resolved.working_hours r ≠ [].
Proof.
  intros Hum. rewrite AnalyticsService_getAll_map.
  assert (Hin : UserMapping.user_id um
                ∈ UserMapping.user_id <$> first_per_user ∅ userMappings).
  { apply first_per_user_covers; [done|set_solver]. }
  apply list_elem_of_fmap in Hin as (um' & Hid & Hum').
  exists (resolve_user AnalyticsService.default_working_hours wh um'). split; [|split].
  - apply list_elem_of_fmap. by exists um'.
  - by rewrite resolve_user_user_id.
  - by apply resolve_user_not_empty.
Qed.

(** X9: [getAllWorkingHoursConfig] of analyticsService.js returns one entry
    per [user_id]: the user ids of the entries are pairwise different,
    every user of the mapping has an entry, and the entry of a user is
    resolved from the first row of the mapping with that [user_id]. *)
Theorem AnalyticsService_getAll_one_per_user (userMappings : list UserMapping.row)
    (wh : list WorkingHours.row) :
  NoDup (Resolved.user_id <$> AnalyticsService.getAllWorkingHoursConfig userMappings wh)
  ∧ (∀ um, um ∈ userMappings →
       UserMapping.user_id um
       ∈ Resolved.user_id <$> AnalyticsService.getAllWorkingHoursConfig userMappings wh)
  ∧ (∀ r, r ∈ AnalyticsService.getAllWorkingHoursConfig userMappings wh →
       ∃ l1 um l2,
         userMappings = l1 ++ um :: l2
         ∧ (∀ x, x ∈ l1 → UserMapping.user_id x ≠ UserMapping.user_id um)
         ∧ r = resolve_user AnalyticsService.default_working_hours wh um).
Proof.
  rewrite AnalyticsService_getAll_map, resolve_user_ids. split; [apply first_per_user_NoDup|]. split.
  - intros um Hum. apply first_per_user_covers; [done|set_solver].
  - intros r (um & -> & (_ & l1 & l2 & -> & Hl1)%first_per_user_first)%list_elem_of_fmap.
    by exists l1, um, l2.
Qed.

(** X10: after [prepareWorkingHoursConfig], every user of the mapping has
    at least one configuration row under its own id, so the lookup of a
    mapped user in the prepared configuration never comes back empty. *)
Theorem prepared_config_has_every_user (js_String : option Z → string)
    (toLowerCase : string → string) (userMappings : list UserMapping.row)
    (wh : list WorkingHours.row) (um : UserMapping.row) :
  um ∈ userMappings →
  filter (λ config, ConfigRow.user_id config = js_String (UserMapping.user_id um))
         (prepareWorkingHoursConfig js_String toLowerCase
            (AnalyticsService.getAllWorkingHoursConfig userMappings wh))
  ≠ [].
Proof.
  intros Hum.
  destruct (AnalyticsService_getAll_covers userMappings wh um Hum) as (r & Hr & Hid & Hhours).
  destruct (Resolved.working_hours r) as [|e es] eqn:He; [done|].
  intros Hnil. eapply (filter_nil_not_elem_of _ _ _ Hnil); last first.
  - unfold prepareWorkingHoursConfig. apply list_elem_of_In, in_flat_map.
    exists r. split; [by apply list_elem_of_In|]. rewrite He. left. done.
  - simpl. by rewrite Hid.
Qed.

Lemma prepared_config_has_every_user_14024 :
  filter (λ config, ConfigRow.user_id config
                    = from_option pretty "null" (UserMapping.user_id user_14024))
         (prepareWorkingHoursConfig (from_option pretty "null") id
            (AnalyticsService.getAllWorkingHoursConfig [user_14024] [team_monday]))
  ≠ [].
Proof. apply prepared_config_has_every_user. left. Defined.

(** ** Further properties of the response pairing *)

Lemma response_times_nonneg (user org : option Z) (group : list Message.t) :
  Forall (λ rt, (0 <= ResponseTime.response_time rt)%Q)
         (responseTimesForGroup user org group).
Proof.
  apply Forall_forall. intros rt. unfold responseTimesForGroup.
  intros (i & Hi%in_seq & Hrt%list_elem_of_In)%list_elem_of_In%in_flat_map.
  unfold response_at in Hrt.
  set (g := sort_by Message.message_timestamp group) in *.
  destruct (g !! i) as [cur|] eqn:Hcur; [|by apply elem_of_nil in Hrt].
  case_bool_decide; [|by apply elem_of_nil in Hrt].
  rewrite scan_back_spec in Hrt by lia.
  case_decide as Hprev; [|by apply elem_of_nil in Hrt]. destruct Hprev as [Hpos _].
  destruct (g !! (i - 1)%nat) as [prev|] eqn:Hp; [|by apply elem_of_nil in Hrt].
  apply list_elem_of_singleton in Hrt as ->. simpl.
  assert (Message.message_timestamp prev <= Message.message_timestamp cur).
  { apply (Sorted_adjacent Message.message_timestamp g (i - 1)); [apply sort_by_Sorted|done|].
    by replace (S (i - 1)) with i by lia. }
  unfold Qle. simpl. lia.
Qed.

(** X11: no response time of [calculateResponseTimes] is negative: a reply
    is paired with a message whose timestamp is not after its own. *)
Theorem response_time_never_negative (user org : option Z) (group : list Message.t)
    (rt : ResponseTime.t) :
  rt ∈ responseTimesForGroup user org group →
  (0 <= ResponseTime.response_time rt)%Q.
Proof.
  intros Hrt.
  exact (proj1 (Forall_forall _ _) (response_times_nonneg user org group) rt Hrt).
Qed.

Lemma response_time_never_negative_reply :
  ∃ rt, rt ∈ responseTimesForGroup (Some 14024) (Some 2) question_and_reply
        ∧ (0 <= ResponseTime.response_time rt)%Q.
Proof.
  assert (Hrt : ∃ rt, rt ∈ responseTimesForGroup (Some 14024) (Some 2) question_and_reply)
    by (eexists; vm_compute; left).
  destruct Hrt as [rt Hrt]. exists rt. split; [exact Hrt|].
  exact (response_time_never_negative (Some 14024) (Some 2) question_and_reply rt Hrt).
Defined.

Lemma count_adjacent_le_filter_tail (d1 d2 : direction) (ds : list direction) :
  (count_adjacent d1 d2 ds ≤ length (filter (λ d, d = d1) ds))%nat
  ∧ (count_adjacent d1 d2 ds ≤ length (filter (λ d, d = d2) (tail ds)))%nat.
Proof.
  induction ds as [|x ds IH]; [rewrite count_adjacent_short by (simpl; lia); simpl; lia|].
  destruct ds as [|y ds]; [rewrite count_adjacent_short by (simpl; lia); simpl; lia|].
  rewrite count_adjacent_cons. destruct IH as [IH1 IH2]. simpl tail in *.
  rewrite !filter_cons in IH1 |- *.
  destruct (decide (x = d1 ∧ y = d2)) as [[Hx Hy]|Hn], (decide (x = d1));
    rewrite ?filter_cons;
    destruct (decide (y = d1)), (decide (y = d2));
    simpl in *; try lia; try done; try (destruct Hn; done).
Qed.

Lemma count_adjacent_le_filter (d1 d2 : direction) (ds : list direction) :
  (count_adjacent d1 d2 ds ≤ length (filter (λ d, d = d1) ds))%nat
  ∧ (count_adjacent d1 d2 ds ≤ length (filter (λ d, d = d2) ds))%nat.
Proof.
  destruct (count_adjacent_le_filter_tail d1 d2 ds) as [H1 H2]. split; [done|].
  destruct ds as [|x ds]; [done|]. simpl tail in H2. rewrite filter_cons.
  destruct (decide (x = d2)); simpl; lia.
Qed.

(** X12: a group yields at most as many responses as it has outgoing
    messages, and at most as many as it has incoming messages: no message
    is paired twice. *)
Theorem responses_bounded_by_messages (user org : option Z) (group : list Message.t) :
  (length (responseTimesForGroup user org group)
   ≤ length (filter (λ m, Message.direction m = OUTGOING) group))%nat
  ∧ (length (responseTimesForGroup user org group)
     ≤ length (filter (λ m, Message.direction m = INCOMING) group))%nat.
Proof.
  rewrite responseTimesForGroup_length.
  assert (Hcount : ∀ d, length (filter (λ m, Message.direction m = d) group)
                        = length (filter (λ d', d' = d)
                            (Message.direction <$> sort_by Message.message_timestamp group))).
  { intros d. rewrite (sort_by_Permutation Message.message_timestamp group).
    induction group as [|m group IH]; [done|].
    rewrite fmap_cons, !filter_cons.
    destruct (decide (Message.direction m = d)); simpl; by rewrite IH. }
  rewrite !Hcount. destruct (count_adjacent_le_filter INCOMING OUTGOING
    (Message.direction <$> sort_by Message.message_timestamp group)). done.
Qed.




(** ** Properties of the columns of chat_aggregates *)

Lemma MIN_spec (xs : list (option Z)) :
  match MIN xs with
  | Some m => Some m ∈ xs ∧ ∀ x, Some x ∈ xs → m <= x
  | None => ∀ x, Some x ∉ xs
  end.
Proof.
  induction xs as [|[a|] xs IH]; simpl.
  - intros x. apply not_elem_of_nil.
  - destruct (MIN xs) as [b|].
    + destruct IH as [Hb Hmin]. split.
      * destruct (Z.min_spec a b) as [[_ ->]|[_ ->]]; [left|by right].
      * intros x [[= ->]|Hx]%elem_of_cons; [lia|]. specialize (Hmin x Hx). lia.
    + split; [left|]. intros x [[= ->]|Hx]%elem_of_cons; [lia|]. by destruct (IH x).
  - destruct (MIN xs) as [b|].
    + destruct IH as [Hb Hmin]. split; [by right|].
      intros x [[=]|Hx]%elem_of_cons. by apply Hmin.
    + intros x [[=]|Hx]%elem_of_cons. by destruct (IH x).
Qed.

Lemma MAX_spec (xs : list (option Z)) :
  match MAX xs with
  | Some m => Some m ∈ xs ∧ ∀ x, Some x ∈ xs → x <= m
  | None => ∀ x, Some x ∉ xs
  end.
Proof.
  induction xs as [|[a|] xs IH]; simpl.
  - intros x. apply not_elem_of_nil.
  - destruct (MAX xs) as [b|].
    + destruct IH as [Hb Hmax]. split.
      * destruct (Z.max_spec a b) as [[_ ->]|[_ ->]]; [by right|left].
      * intros x [[= ->]|Hx]%elem_of_cons; [lia|]. specialize (Hmax x Hx). lia.
    + split; [left|]. intros x [[= ->]|Hx]%elem_of_cons; [lia|]. by destruct (IH x).
  - destruct (MAX xs) as [b|].
    + destruct IH as [Hb Hmax]. split; [by right|].
      intros x [[=]|Hx]%elem_of_cons. by apply Hmax.
    + intros x [[=]|Hx]%elem_of_cons. by destruct (IH x).
Qed.

Lemma MIN_unique (xs : list (option Z)) (m : Z) :
  Some m ∈ xs → (∀ x, Some x ∈ xs → m <= x) → MIN xs = Some m.
Proof.
  intros Hm Hmin. pose proof (MIN_spec xs) as Hspec.
  destruct (MIN xs) as [m'|]; [|by destruct (Hspec m)].
  destruct Hspec as [Hm' Hmin']. f_equal.
  specialize (Hmin m' Hm'). specialize (Hmin' m Hm). lia.
Qed.

Lemma first_message_ts_elem (d : direction) (group : list Lagged.t) (m : timestamp) :
  Some m ∈ (λ r, if decide (Event.direction (Lagged.event r) = d)
                 then Some (Event.message_timestamp (Lagged.event r)) else None) <$> group →
  ∃ r, r ∈ group ∧ Event.direction (Lagged.event r) = d
       ∧ Event.message_timestamp (Lagged.event r) = m.
Proof.
  intros (r & Hr & Hin)%list_elem_of_fmap. exists r.
  destruct (decide _); [|done]. by injection Hr as ->.
Qed.

(** X14: in a group of [chat_aggregates] the start of the conversation is
    not after its last message, and the first message of the contact and
    the first message of the agent, when there is one, lie between the
    two. *)
Theorem conversation_timestamps_ordered (group : list Lagged.t) :
  group ≠ [] →
  ∃ a b, conversation_start_ts group = Some a ∧ last_message_ts group = Some b
         ∧ a <= b
         ∧ ∀ d m, first_message_ts d group = Some m → a <= m <= b.
Proof.
  intros Hne. unfold conversation_start_ts, last_message_ts.
  set (all_ts := (λ r, Some (Event.message_timestamp (Lagged.event r))) <$> group).
  assert (Hall : ∀ r, r ∈ group → Some (Event.message_timestamp (Lagged.event r)) ∈ all_ts).
  { intros r Hr. apply list_elem_of_fmap. by exists r. }
  pose proof (MIN_spec all_ts) as Hmin. pose proof (MAX_spec all_ts) as Hmax.
  destruct group as [|r0 group]; [done|].
  destruct (MIN all_ts) as [a|]; [|by destruct (Hmin _ (Hall r0 ltac:(left)))].
  destruct (MAX all_ts) as [b|]; [|by destruct (Hmax _ (Hall r0 ltac:(left)))].
  destruct Hmin as [Ha Hmin], Hmax as [Hb Hmax].
  exists a, b. split; [done|]. split; [done|]. split; [by apply Hmax|].
  intros d m Hd. unfold first_message_ts in Hd.
  pose proof (MIN_spec ((λ r, if decide (Event.direction (Lagged.event r) = d)
                              then Some (Event.message_timestamp (Lagged.event r))
                              else None) <$> r0 :: group)) as Hspec.
  rewrite Hd in Hspec. destruct Hspec as [(r & Hr & _ & <-)%first_message_ts_elem _].
  split; [by apply Hmin, Hall|by apply Hmax, Hall].
Qed.

Lemma conversation_timestamps_ordered_one_reply :
  ∃ a b, conversation_start_ts (chat_group Original one_reply chat_1) = Some a
         ∧ last_message_ts (chat_group Original one_reply chat_1) = Some b
         ∧ a <= b
         ∧ ∀ d m, first_message_ts d (chat_group Original one_reply chat_1) = Some m →
                  a <= m <= b.
Proof. apply conversation_timestamps_ordered. vm_compute. discriminate. Defined.

Lemma lag_rows_events (prev : option Event.t) (window : list Event.t) :
  Lagged.event <$> lag_rows prev window = window.
Proof.
  revert prev. induction window as [|e rest IH]; intros prev; [done|].
  simpl. by rewrite IH.
Qed.

Lemma lag_rows_Some_prev (pe : Event.t) (window : list Event.t) (r : Lagged.t) :
  r ∈ lag_rows (Some pe) window → Lagged.prev r ≠ None.
Proof.
  revert pe. induction window as [|e rest IH]; intros pe; simpl.
  - by intros ?%elem_of_nil.
  - intros [->|Hr]%elem_of_cons; [done|by eapply IH].
Qed.

(** Every OUTGOING row opens its window, answers an INCOMING row or
    follows an OUTGOING one. *)
Lemma outgoing_rows_split (rows : list Lagged.t) :
  agent_message_count rows
  = (length (filter (λ r, Event.direction (Lagged.event r) = OUTGOING
                          ∧ Lagged.prev r = None) rows)
     + length (filter is_response rows) + length (filter is_follow_up rows))%nat.
Proof.
  unfold agent_message_count. induction rows as [|r rows IH]; [done|].
  rewrite !filter_cons.
  repeat case_decide; simpl length; rewrite ?IH; try lia;
    unfold is_response, is_follow_up, Lagged.prev_direction in *;
    destruct (Lagged.prev r) as [p|]; simpl in *;
    try destruct (Event.direction p); intuition congruence.
Qed.

Lemma chat_window_Sorted (q : lifetime_query) (message_events : list Event.t)
    (chat : string) :
  Sorted (λ a b, Event.message_timestamp a <= Event.message_timestamp b)
         (chat_window q message_events chat).
Proof. apply sort_by_Sorted. Qed.

Lemma filter_all {A} (P : A → Prop) `{!∀ x, Decision (P x)} (l : list A) :
  (∀ x, x ∈ l → P x) → filter P l = l.
Proof.
  induction l as [|x l IH]; intros HP; [done|].
  rewrite filter_cons_True by (apply HP; left). f_equal. apply IH. intros; apply HP. by right.
Qed.

Lemma chat_group_all (q : lifetime_query) (message_events : list Event.t) (k : chat_key) :
  (∀ e, e ∈ chat_window q message_events (key_chat_id k) → in_group q k e) →
  chat_group q message_events k = events_with_lag q message_events (key_chat_id k).
Proof.
  intros Hall. apply filter_all. intros r Hr%lag_rows_event. by apply Hall.
Qed.

Lemma lag_rows_Some_no_opening (pe : Event.t) (window : list Event.t) :
  filter (λ r, Event.direction (Lagged.event r) = OUTGOING ∧ Lagged.prev r = None)
         (lag_rows (Some pe) window) = [].
Proof.
  revert pe. induction window as [|e rest IH]; intros pe; [done|].
  cbn [lag_rows]. rewrite filter_cons_False by (by intros [_ ?]). apply IH.
Qed.

(** X15: for a chat whose events fall in one group and have pairwise
    different timestamps (so that [ORDER BY message_timestamp] leaves no
    choice), every message of the agent is counted exactly once as the
    message that starts the conversation, as a response to the contact, or
    as a follow-up: [agent_message_count] is the sum of the three. *)
Theorem agent_messages_split (q : lifetime_query) (message_events : list Event.t)
    (k : chat_key) :
  (∀ e, e ∈ chat_window q message_events (key_chat_id k) → in_group q k e) →
  NoDup (Event.message_timestamp <$> chat_window q message_events (key_chat_id k)) →
  agent_message_count (chat_group q message_events k)
  = ((if decide (conversation_starter (chat_group q message_events k) = "employee")
      then 1 else 0)
     + length (response_events q message_events (key_chat_id k))
     + follow_up_count q message_events k)%nat.
Proof.
  intros Hall _. rewrite chat_group_all by done.
  unfold response_events, follow_up_count.
  rewrite outgoing_rows_split, omap_response_event_length.
  rewrite (filter_ext_in (λ r, in_group q k (Lagged.event r) ∧ is_follow_up r) is_follow_up)
    by (intros r Hr%lag_rows_event; split; [by intros [_ ?]|split; [by apply Hall|done]]).
  f_equal. f_equal.
  unfold conversation_starter, starter_direction, events_with_lag.
  rewrite lag_rows_events, Sorted_sort_by_id by apply chat_window_Sorted.
  destruct (chat_window q message_events (key_chat_id k)) as [|e rest]; [done|].
  cbn [lag_rows head]. rewrite filter_cons, lag_rows_Some_no_opening. simpl.
  destruct (Event.direction e); repeat case_decide; simpl; intuition congruence.
Qed.

Lemma agent_messages_split_one_reply :
  agent_message_count (chat_group Original one_reply chat_1)
  = ((if decide (conversation_starter (chat_group Original one_reply chat_1) = "employee")
      then 1 else 0)
     + length (response_events Original one_reply (key_chat_id chat_1))
     + follow_up_count Original one_reply chat_1)%nat.
Proof.
  apply (agent_messages_split Original one_reply chat_1).
  - intros e. vm_compute.
    intros [->|[->|[]%elem_of_nil]%elem_of_cons]%elem_of_cons; repeat split.
  - apply (bool_decide_unpack _). vm_compute. exact I.
Defined.

Lemma Sorted_head_min {A} (key : A → Z) (l : list A) (h : A) :
  Sorted (λ a b, key a <= key b) l → head l = Some h →
  ∀ x, x ∈ l → key h <= key x.
Proof.
  intros Hl. revert h. induction Hl as [|y l Hl IH Hhd]; intros h; [done|].
  intros [= ->] x [->|Hx]%elem_of_cons; [lia|].
  destruct Hhd as [|z l' Hz]; [by apply elem_of_nil in Hx|].
  specialize (IH z eq_refl x Hx). lia.
Qed.

(** The event at the head of the group in timestamp order carries the
    smallest timestamp of the group, and of the events of its direction. *)
Lemma head_event_is_first (group : list Lagged.t) (h : Event.t) :
  head (sort_by Event.message_timestamp (Lagged.event <$> group)) = Some h →
  conversation_start_ts group = Some (Event.message_timestamp h)
  ∧ first_message_ts (Event.direction h) group = Some (Event.message_timestamp h).
Proof.
  intros Hhead.
  pose proof (Sorted_head_min Event.message_timestamp _ h
                (sort_by_Sorted Event.message_timestamp (Lagged.event <$> group)) Hhead)
    as Hmin.
  assert (Hh : h ∈ Lagged.event <$> group).
  { rewrite <- (sort_by_Permutation Event.message_timestamp). by apply head_Some_elem_of. }
  apply list_elem_of_fmap in Hh as (rh & -> & Hrh).
  assert (Hle : ∀ r, r ∈ group →
            Event.message_timestamp (Lagged.event rh)
            <= Event.message_timestamp (Lagged.event r)).
  { intros r Hr. apply Hmin. rewrite (sort_by_Permutation Event.message_timestamp).
    apply list_elem_of_fmap. by exists r. }
  split; apply MIN_unique.
  - apply list_elem_of_fmap. by exists rh.
  - intros x (r & [= Hx] & Hr)%list_elem_of_fmap. subst x. by apply Hle.
  - apply list_elem_of_fmap. exists rh. by rewrite decide_True.
  - intros x (r & Hr & _ & <-)%first_message_ts_elem. by apply Hle.
Qed.

(** X16: the side that starts the conversation sent the first message:
    when [conversation_starter] is employee the first agent message has the
    timestamp the conversation starts at, and otherwise (in a group that is
    not empty) the first contact message has it. *)
Theorem starter_sent_first_message (group : list Lagged.t) :
  (conversation_starter group = "employee" →
   first_agent_message_ts group = conversation_start_ts group)
  ∧ (conversation_starter group = "contact" → group ≠ [] →
     first_contact_message_ts group = conversation_start_ts group).
Proof.
  unfold conversation_starter, starter_direction, first_agent_message_ts,
    first_contact_message_ts.
  destruct (head (sort_by Event.message_timestamp (Lagged.event <$> group)))
    as [h|] eqn:Hhead; simpl.
  - destruct (head_event_is_first group h Hhead) as [-> Hfirst].
    destruct (Event.direction h) eqn:Hd; simpl; split; try done.
  - split; [done|]. intros _ Hne.
    apply head_None in Hhead.
    apply (f_equal length) in Hhead.
    rewrite (sort_by_Permutation Event.message_timestamp), length_fmap in Hhead.
    by destruct group.
Qed.

(** ** Properties of the MERGE statements *)

Lemma sql_eq_true {A} `{EqDecision A} (a b : option A) :
  sql_eq a b = true ↔ ∃ x, a = Some x ∧ b = Some x.
Proof.
  destruct a as [x|], b as [y|]; simpl; split; try done;
    try (by intros (? & ? & ?)).
  - intros ->%bool_decide_eq_true. eauto.
  - intros (z & [= ->] & [= ->]). by apply bool_decide_eq_true.
Qed.

Lemma sql_eq_Some {A} `{EqDecision A} (a b c : option A) :
  sql_eq a b = true → sql_eq b c = sql_eq a c.
Proof. by intros (x & -> & ->)%sql_eq_true. Qed.

(** An update leaves the columns [ON] compares as they were. *)
Lemma merge_on_update (q : lifetime_query) (t s s' : Summary.row) :
  merge_on q t s = true → merge_on q (merge_update t s) s' = merge_on q t s'.
Proof.
  unfold merge_on. simpl. destruct q; [done|].
  intros Hon. do 3 f_equal.
  apply andb_true_iff in Hon as [[[_ Horg]%andb_true_iff _]%andb_true_iff _].
  apply sql_eq_true in Horg as (o & -> & ->). done.
Qed.

(** An inserted row matches exactly the source rows with the key of the
    row it was inserted from. *)
Lemma merge_on_insert (q : lifetime_query) (s s' : Summary.row) :
  key_not_null q s →
  merge_on q (merge_insert s) s' = true ↔ merge_key q s = merge_key q s'.
Proof.
  unfold key_not_null, merge_on, merge_key. simpl.
  intros ([u ->] & [c ->] & [p ->] & Horg).
  rewrite !andb_true_iff, !sql_eq_true.
  destruct q.
  - split.
    + intros [[[(? & [= <-] & ->) _] (? & [= <-] & ->)] (? & [= <-] & ->)]. done.
    + intros [= <- <- <-]. repeat split; eauto.
  - destruct Horg as [o ->]. rewrite sql_eq_true. split.
    + intros [[[(? & [= <-] & ->) (? & [= <-] & ->)] (? & [= <-] & ->)] (? & [= <-] & ->)].
      done.
    + intros [= <- <- <- <-]. repeat split; eauto.
Qed.

Lemma filter_none {A} (P : A → Prop) `{!∀ x, Decision (P x)} (l : list A) :
  (∀ x, x ∈ l → ¬ P x) → filter P l = [].
Proof.
  induction l as [|x l IH]; intros HP; [done|].
  rewrite filter_cons_False by (apply HP; left). apply IH. intros; apply HP. by right.
Qed.

Lemma filter_key_singleton {A B} `{EqDecision B} (f : A → B) (l : list A) (s : A) :
  NoDup (f <$> l) → s ∈ l → filter (λ s', f s = f s') l = [s].
Proof.
  induction l as [|x l IH]; [by intros _ ?%elem_of_nil|].
  rewrite fmap_cons. intros [Hx Hl]%NoDup_cons [->|Hs]%elem_of_cons.
  - rewrite filter_cons_True by done. f_equal.
    apply filter_none. intros s' Hs' Heq.
    apply Hx, list_elem_of_fmap. by exists s'.
  - rewrite filter_cons_False; [by apply IH|].
    intros Heq. apply Hx, list_elem_of_fmap. by exists s.
Qed.

Section Merge.
Context (q : lifetime_query) (source : list Summary.row).
Hypothesis keys_not_null : Forall (key_not_null q) source.
Hypothesis keys_distinct : NoDup (merge_key q <$> source).

Lemma inserted_row_matches_its_source (s : Summary.row) :
  s ∈ source → filter (λ s', merge_on q (merge_insert s) s' = true) source = [s].
Proof.
  intros Hs. rewrite <- (filter_key_singleton (merge_key q) source s) by done.
  apply list_filter_iff. intros s'. apply merge_on_insert.
  by eapply Forall_forall in keys_not_null.
Qed.

(** A row the statement has written is left as it is by a second run. *)
Lemma merge_matched_fixpoint (target : list Summary.row) (t y : Summary.row) :
  merge_matched q source t = Some y → merge_matched q source y = Some y.
Proof.
  unfold merge_matched.
  destruct (filter (λ s, merge_on q t s = true) source) as [|s [|s2 rest]] eqn:Hf;
    [|intros [= <-]|done].
  - intros [= <-]. by rewrite Hf.
  - assert (Hon : merge_on q t s = true).
    { assert (Hs : s ∈ filter (λ s, merge_on q t s = true) source) by (rewrite Hf; left).
      by apply list_elem_of_filter in Hs as [? _]. }
    rewrite (list_filter_iff (λ s', merge_on q (merge_update t s) s' = true)
                             (λ s', merge_on q t s' = true))
      by (intros s'; by rewrite merge_on_update).
    by rewrite Hf.
Qed.

Lemma merge_inserted_fixpoint (s : Summary.row) :
  s ∈ source → merge_matched q source (merge_insert s) = Some (merge_insert s).
Proof.
  intros Hs. unfold merge_matched. by rewrite inserted_row_matches_its_source.
Qed.

(** After the statement every source row is matched by a row of the
    table. *)
Lemma merged_rows_match_source (target updated : list Summary.row) (s : Summary.row) :
  Forall2 (λ t y, merge_matched q source t = Some y) target updated →
  s ∈ source →
  ¬ Forall (λ t, merge_on q t s = false)
           (updated ++ (merge_insert <$> not_matched q target source)).
Proof.
  intros Hupd Hs Hnone. apply Forall_app in Hnone as [Hu Hi].
  destruct (decide (Forall (λ t, merge_on q t s = false) target)) as [Hno|Hsome].
  - assert (Hin : merge_insert s ∈ merge_insert <$> not_matched q target source).
    { apply list_elem_of_fmap. exists s. split; [done|]. by apply list_elem_of_filter. }
    eapply Forall_forall in Hi; [|exact Hin].
    assert (merge_on q (merge_insert s) s = true) as Htrue; [|congruence].
    apply merge_on_insert; [|done]. by eapply Forall_forall in keys_not_null.
  - apply not_Forall_Exists in Hsome; [|apply _].
    apply Exists_exists in Hsome as (t & Ht & Hon).
    apply not_false_iff_true in Hon.
    apply list_elem_of_lookup in Ht as [i Hi'].
    destruct (Forall2_lookup_l _ _ _ _ _ Hupd Hi') as (y & Hy & Hm).
    assert (Hs' : s ∈ filter (λ s', merge_on q t s' = true) source)
      by (by apply list_elem_of_filter).
    unfold merge_matched in Hm.
    destruct (filter (λ s', merge_on q t s' = true) source) as [|s0 [|s2 rest]];
      [by apply elem_of_nil in Hs'| |done].
    apply list_elem_of_singleton in Hs' as <-. injection Hm as <-.
    eapply Forall_forall in Hu; [|by eapply list_elem_of_lookup_2].
    rewrite merge_on_update in Hu by done. congruence.
Qed.

End Merge.

(** X17: the MERGE on [conversation_summary] is idempotent when no source
    row has a [NULL] in a column of the [ON] and the source rows have
    pairwise different keys (which [GROUP BY] gives them): a second run
    with the same source succeeds and leaves the table as the first run
    left it. *)
Theorem MERGE_idempotent (q : lifetime_query) (target source merged : list Summary.row) :
  Forall (key_not_null q) source →
  NoDup (merge_key q <$> source) →
  MERGE q target source = Some merged →
  MERGE q merged source = Some merged.
Proof.
  intros Hnn Hnd. unfold MERGE.
  destruct (mapM (merge_matched q source) target) as [updated|] eqn:Hupd; [|done].
  simpl. intros [= <-]. apply mapM_Some_1 in Hupd.
  assert (Hfix : mapM (merge_matched q source)
                      (updated ++ (merge_insert <$> not_matched q target source))
                 = Some (updated ++ (merge_insert <$> not_matched q target source))).
  { apply mapM_Some_2, Forall2_same_length_lookup. split; [done|].
    intros i x y Hx Hy. rewrite Hx in Hy. injection Hy as <-.
    apply list_elem_of_lookup_2, elem_of_app in Hx as [Hx|Hx].
    - apply list_elem_of_lookup in Hx as [j Hj].
      destruct (Forall2_lookup_r _ _ _ _ _ Hupd Hj) as (t & _ & Hm).
      by eapply merge_matched_fixpoint.
    - apply list_elem_of_fmap in Hx as (s & -> & [_ Hs]%list_elem_of_filter).
      by apply merge_inserted_fixpoint. }
  rewrite Hfix. simpl. f_equal.
  assert (Hnone : not_matched q (updated ++ (merge_insert <$> not_matched q target source))
                               source = []).
  { apply filter_none. intros s Hs. by eapply merged_rows_match_source. }
  rewrite Hnone. simpl. by rewrite app_nil_r.
Qed.

Lemma MERGE_idempotent_chat_1 :
  MERGE Original [merge_insert (summary_chat_1 (Some "919000000001"))]
        [summary_chat_1 (Some "919000000001")]
  = Some [merge_insert (summary_chat_1 (Some "919000000001"))].
Proof.
  apply (MERGE_idempotent Original [] [summary_chat_1 (Some "919000000001")]).
  - repeat constructor; simpl; eauto.
  - repeat constructor. by intros ?%elem_of_nil.
  - reflexivity.
Defined.

Lemma merge_on_null_key (q : lifetime_query) (t s : Summary.row) :
  ¬ key_not_null q s → merge_on q t s = false.
Proof.
  unfold key_not_null, merge_on. intros Hnull.
  destruct (Summary.uid s) as [u|] eqn:Hu; [|by destruct (Summary.uid t)].
  destruct (Summary.chat_id s) as [c|] eqn:Hc;
    [|destruct (Summary.chat_id t); by rewrite ?andb_false_r].
  destruct (Summary.phone_number s) as [p|] eqn:Hp;
    [|destruct (Summary.phone_number t); by rewrite ?andb_false_r].
  destruct q; [destruct Hnull; eauto 10|].
  destruct (Summary.org_id s) as [o|] eqn:Ho; [destruct Hnull; eauto 10|].
  destruct (Summary.org_id t); by rewrite ?andb_false_r.
Qed.

(** X18: a source row with a [NULL] in a column of the [ON] (a chat
    without [agent_phone_number], say) matches no row of the table: every
    run of the statement that succeeds inserts it once more, and the table
    grows. *)
Theorem MERGE_reinserts_null_keys (q : lifetime_query)
    (target source merged : list Summary.row) (s : Summary.row) :
  s ∈ source → ¬ key_not_null q s →
  MERGE q target source = Some merged →
  merge_insert s ∈ merged ∧ (length target < length merged)%nat.
Proof.
  intros Hs Hnull. unfold MERGE.
  destruct (mapM (merge_matched q source) target) as [updated|] eqn:Hupd; [|done].
  simpl. intros [= <-].
  assert (Hin : s ∈ not_matched q target source).
  { apply list_elem_of_filter. split; [|done].
    apply Forall_forall. intros t _. by apply merge_on_null_key. }
  split.
  - apply elem_of_app. right. apply list_elem_of_fmap. by exists s.
  - apply mapM_Some_1, Forall2_length in Hupd. rewrite length_app, length_fmap, <- Hupd.
    destruct (not_matched q target source); [by apply elem_of_nil in Hin|simpl; lia].
Qed.

Lemma MERGE_reinserts_null_keys_chat_1 :
  merge_insert (summary_chat_1 None)
    ∈ [merge_insert (summary_chat_1 None); merge_insert (summary_chat_1 None)]
  ∧ (length [merge_insert (summary_chat_1 None)]
     < length [merge_insert (summary_chat_1 None); merge_insert (summary_chat_1 None)])%nat.
Proof.
  apply (MERGE_reinserts_null_keys Original [merge_insert (summary_chat_1 None)]
           [summary_chat_1 None] _ (summary_chat_1 None)).
  - left.
  - intros (_ & _ & [p Hp] & _). discriminate.
  - reflexivity.
Defined.

(** ** Properties of the averages *)

Lemma SUM_lower (lo : Z) (ys : list Z) :
  (∀ y, y ∈ ys → lo <= y) → lo * Z.of_nat (length ys) <= SUM ys.
Proof.
  induction ys as [|y ys IH]; intros Hys; [simpl; lia|].
  specialize (IH ltac:(intros; apply Hys; by right)).
  specialize (Hys y ltac:(left)). cbn [SUM foldr length]. fold (SUM ys). lia.
Qed.

Lemma SUM_upper (hi : Z) (ys : list Z) :
  (∀ y, y ∈ ys → y <= hi) → SUM ys <= hi * Z.of_nat (length ys).
Proof.
  induction ys as [|y ys IH]; intros Hys; [simpl; lia|].
  specialize (IH ltac:(intros; apply Hys; by right)).
  specialize (Hys y ltac:(left)). cbn [SUM foldr length]. fold (SUM ys). lia.
Qed.

Lemma length_pos_Q {A} (ys : list A) : ys ≠ [] → (0 < inject_Z (Z.of_nat (length ys)))%Q.
Proof. intros Hne. unfold Qlt. destruct ys; [done|simpl; lia]. Qed.

(** The mean of whole numbers is at least any lower bound of the numbers
    and at most any upper bound. *)
Lemma mean_lower (lo : Z) (ys : list Z) :
  ys ≠ [] → (∀ y, y ∈ ys → lo <= y) →
  (inject_Z lo <= inject_Z (SUM ys) / inject_Z (Z.of_nat (length ys)))%Q.
Proof.
  intros Hne Hys. pose proof (SUM_lower lo ys Hys).
  apply Qle_shift_div_l; [by apply length_pos_Q|].
  by rewrite <- inject_Z_mult, <- Zle_Qle.
Qed.

Lemma mean_upper (hi : Z) (ys : list Z) :
  ys ≠ [] → (∀ y, y ∈ ys → y <= hi) →
  (inject_Z (SUM ys) / inject_Z (Z.of_nat (length ys)) <= inject_Z hi)%Q.
Proof.
  intros Hne Hys. pose proof (SUM_upper hi ys Hys).
  apply Qle_shift_div_r; [by apply length_pos_Q|].
  by rewrite <- inject_Z_mult, <- Zle_Qle.
Qed.

Lemma omap_id_elem {A} (xs : list (option A)) (y : A) : y ∈ omap id xs ↔ Some y ∈ xs.
Proof.
  rewrite list_elem_of_omap. split.
  - intros (x & Hx & Hid). simpl in Hid. by subst x.
  - intros Hy. by exists (Some y).
Qed.

(** [AVG] is [NULL] without a value that is not [NULL], and otherwise lies
    between any two bounds of these values. *)
Lemma AVG_bounds (lo hi : Z) (xs : list (option Z)) :
  (∀ x, Some x ∈ xs → lo <= x <= hi) →
  match AVG xs with
  | Some q => (inject_Z lo <= q <= inject_Z hi)%Q ∧ ∃ x, Some x ∈ xs
  | None => ∀ x, Some x ∉ xs
  end.
Proof.
  intros Hxs. unfold AVG. pose proof (omap_id_elem xs) as Hmem.
  destruct (omap id xs) as [|y ys] eqn:Hys.
  - intros x Hx. apply Hmem in Hx. by apply elem_of_nil in Hx.
  - split; [split|].
    + apply mean_lower; [done|]. intros x Hx. by apply Hxs, Hmem.
    + apply mean_upper; [done|]. intros x Hx. by apply Hxs, Hmem.
    + exists y. apply Hmem. left.
Qed.

(** X19: the [average_response_time] of the FIXED query is 0 when every
    response pair of the key has no working seconds (or there is no pair),
    and is at least one second otherwise: 0 never stands for a measured
    average. *)
Theorem average_response_time_fixed_zero_or_counted (v : udf_revision)
    (message_events : list Event.t) (working_hours : list WorkingHoursUtc.row)
    (k : chat_key) :
  (average_response_time_fixed v message_events working_hours k = 0%Q
   ∧ ∀ re, re ∈ response_group message_events k →
           working_seconds v Fixed working_hours re = 0)
  ∨ ((1 <= average_response_time_fixed v message_events working_hours k)%Q
     ∧ ∃ re, re ∈ response_group message_events k
             ∧ 0 < working_seconds v Fixed working_hours re).
Proof.
  rewrite average_response_time_fixed_spec. unfold mean_ignoring_zeros.
  set (xs := working_seconds v Fixed working_hours <$> response_group message_events k).
  assert (Hnz : ∀ x, x ∈ filter (λ x, x ≠ 0) xs →
            1 <= x ∧ ∃ re, re ∈ response_group message_events k
                           ∧ x = working_seconds v Fixed working_hours re).
  { intros x [Hx0 (re & -> & Hre)%list_elem_of_fmap]%list_elem_of_filter.
    pose proof (working_seconds_nonneg v Fixed working_hours re).
    split; [lia|by exists re]. }
  destruct (filter (λ x, x ≠ 0) xs) as [|y ys] eqn:Hf.
  - left. split; [done|]. intros re Hre.
    destruct (decide (working_seconds v Fixed working_hours re = 0)) as [|Hne]; [done|].
    assert (Hin : working_seconds v Fixed working_hours re ∈ filter (λ x, x ≠ 0) xs).
    { apply list_elem_of_filter. split; [done|]. apply list_elem_of_fmap. by exists re. }
    rewrite Hf in Hin. by apply elem_of_nil in Hin.
  - right. split.
    + apply (mean_lower 1 (y :: ys)); [done|]. intros x Hx. by apply Hnz.
    + destruct (Hnz y ltac:(left)) as (Hy & re & Hre & ->). exists re. split; [done|lia].
Qed.

(** ** Properties of the daily query *)

(** Two instants of one civil day are less than 86400 seconds apart. *)
Lemma same_date_diff_lt_day (z : zone) (t0 t1 : timestamp) :
  t0 <= t1 → DATE z t0 = DATE z t1 → TIMESTAMP_DIFF_SECOND t1 t0 < 86400.
Proof.
  intros Hle Hd. pose proof (same_date_TIME_diff z t0 t1 Hd) as Hdiff.
  pose proof (TIME_range z t0). pose proof (TIME_range z t1).
  unfold TIMESTAMP_DIFF_SECOND.
  rewrite Z.quot_div_nonneg by (unfold MICROS_PER_SECOND; lia).
  apply Z.div_lt_upper_bound; [done|].
  unfold MICROS_PER_DAY, MICROS_PER_SECOND in *. lia.
Qed.

Lemma working_seconds_lt_day (v : udf_revision) (q : lifetime_query)
    (working_hours : list WorkingHoursUtc.row) (re : ResponseEvent.t) :
  working_seconds v q working_hours re < 86400.
Proof.
  unfold working_seconds.
  destruct (udf_cases v (udf_arguments (user_working_hours q working_hours
                           (ResponseEvent.user_id re) (ResponseEvent.org_id re)))
              (ResponseEvent.prev_message_timestamp re)
              (ResponseEvent.message_timestamp re))
    as [->|(Hlt & Hd & w & _ & _ & _ & ->)]; [done|].
  apply (same_date_diff_lt_day (udf_zone v)); [lia|done].
Qed.

(** X20: whatever the hours, the UDF returns less than 86400: an interval
    is counted only within one civil day, so even hours from midnight to
    midnight never give a full day. *)
Theorem udf_below_one_day (v : udf_revision) (a : working_hours_args)
    (t0 t1 : timestamp) :
  calculate_working_seconds_sql v t0 t1 a < 86400.
Proof.
  destruct (udf_cases v a t0 t1) as [->|(Hlt & Hd & w & _ & _ & _ & ->)]; [done|].
  apply (same_date_diff_lt_day (udf_zone v)); [lia|done].
Qed.

(** X21: [avg_agent_response_time_seconds] of the daily query is [NULL]
    when no response pair of the day has working seconds, and otherwise
    lies between 1 and 86400 seconds: it is never 0. *)
Theorem daily_average_null_or_counted (v : udf_revision)
    (message_events : list Event.t) (working_hours : list WorkingHoursUtc.row)
    (k : daily_key) :
  match avg_agent_response_time_seconds v message_events working_hours k with
  | Some q =>
      (1 <= q)%Q ∧ (q < 86400)%Q
      ∧ ∃ re, re ∈ daily_response_events message_events k
              ∧ 0 < working_seconds v Fixed working_hours re
  | None =>
      ∀ re, re ∈ daily_response_events message_events k →
            working_seconds v Fixed working_hours re = 0
  end.
Proof.
  unfold avg_agent_response_time_seconds.
  set (f := λ re, let ws := working_seconds v Fixed working_hours re in
                  if 0 <? ws then Some ws else None).
  assert (Hf : ∀ x, Some x ∈ f <$> daily_response_events message_events k →
                ∃ re, re ∈ daily_response_events message_events k
                      ∧ x = working_seconds v Fixed working_hours re ∧ 0 < x).
  { intros x (re & Hx & Hre)%list_elem_of_fmap. exists re. unfold f in Hx. simpl in Hx.
    destruct (Z.ltb_spec 0 (working_seconds v Fixed working_hours re)) as [Hpos|_];
      [|done].
    injection Hx as ->. done. }
  pose proof (AVG_bounds 1 86399 (f <$> daily_response_events message_events k)) as Havg.
  destruct (AVG (f <$> daily_response_events message_events k)) as [q|].
  - destruct Havg as [[Hlo Hhi] [x Hx]].
    { intros x (re & _ & -> & Hpos)%Hf.
      pose proof (working_seconds_lt_day v Fixed working_hours re). lia. }
    split; [exact Hlo|]. split.
    + eapply Qle_lt_trans; [exact Hhi|]. reflexivity.
    + destruct (Hf x Hx) as (re & Hre & -> & Hpos). by exists re.
  - intros re Hre.
    pose proof (working_seconds_nonneg v Fixed working_hours re) as Hnn.
    destruct (Z.ltb_spec 0 (working_seconds v Fixed working_hours re)) as [Hpos|Hle];
      [|lia].
    destruct (Havg ltac:(intros x (re' & _ & -> & Hpos')%Hf;
                         pose proof (working_seconds_lt_day v Fixed working_hours re'); lia)
                   (working_seconds v Fixed working_hours re)).
    apply list_elem_of_fmap. exists re. split; [|done]. unfold f. simpl.
    by destruct (Z.ltb_spec 0 (working_seconds v Fixed working_hours re)); [|lia].
Qed.

Lemma first_message_ts_Some (d : direction) (group : list Lagged.t) (m : timestamp) :
  first_message_ts d group = Some m →
  ∃ r, r ∈ group ∧ Event.direction (Lagged.event r) = d
       ∧ Event.message_timestamp (Lagged.event r) = m.
Proof.
  unfold first_message_ts. intros Hm. apply first_message_ts_elem.
  pose proof (MIN_spec ((λ r, if decide (Event.direction (Lagged.event r) = d)
                              then Some (Event.message_timestamp (Lagged.event r))
                              else None) <$> group)) as Hspec.
  rewrite Hm in Hspec. apply Hspec.
Qed.

(** X22: [time_to_first_response_seconds] of the daily query, when it is
    not [NULL], is measured from the first message of the contact to a
    later first message of the agent, both of the day of the group (UTC);
    it is not negative, not more than the seconds between the two, and
    less than a day. *)
Theorem first_response_within_the_day (v : udf_revision)
    (message_events : list Event.t) (working_hours : list WorkingHoursUtc.row)
    (k : daily_key) (x : Z) :
  time_to_first_response_seconds v message_events working_hours k = Some x →
  ∃ contact_ts agent_ts,
    first_contact_message_ts (daily_group message_events k) = Some contact_ts
    ∧ first_agent_message_ts (daily_group message_events k) = Some agent_ts
    ∧ contact_ts < agent_ts
    ∧ DATE UTC contact_ts = day_activity_date k
    ∧ DATE UTC agent_ts = day_activity_date k
    ∧ 0 <= x <= TIMESTAMP_DIFF_SECOND agent_ts contact_ts
    ∧ x < 86400.
Proof.
  unfold time_to_first_response_seconds.
  destruct (first_agent_message_ts (daily_group message_events k)) as [agent_ts|] eqn:Ha;
    [|done].
  destruct (first_contact_message_ts (daily_group message_events k)) as [contact_ts|] eqn:Hc;
    [|done].
  destruct (Z.gtb_spec agent_ts contact_ts) as [Hgt|_]; [|done].
  destruct (user_working_hours Fixed working_hours (day_user_id k) (day_org_id k))
    as [wh|]; [|done].
  intros Hx. injection Hx as <-. exists contact_ts, agent_ts.
  assert (Hday : ∀ d m, first_message_ts d (daily_group message_events k) = Some m →
                        DATE UTC m = day_activity_date k).
  { intros d m (r & Hr & _ & <-)%first_message_ts_Some.
    apply list_elem_of_filter in Hr as [(_ & Hdate & _) _]. exact Hdate. }
  pose proof (Hday _ _ Hc) as Hdc. pose proof (Hday _ _ Ha) as Hda.
  assert (Hdiff : TIMESTAMP_DIFF_SECOND agent_ts contact_ts < 86400).
  { apply (same_date_diff_lt_day UTC); [lia|congruence]. }
  repeat split; try done; try lia.
  - apply udf_nonneg.
  - destruct (udf_cases v (udf_arguments (Some wh)) contact_ts agent_ts)
      as [->|(_ & _ & w & _ & _ & _ & ->)]; [|done].
    apply TIMESTAMP_DIFF_SECOND_bounds. lia.
  - destruct (udf_cases v (udf_arguments (Some wh)) contact_ts agent_ts)
      as [->|(_ & _ & w & _ & _ & _ & ->)]; [done|exact Hdiff].
Qed.

Lemma first_response_within_the_day_one_reply :
  ∃ contact_ts agent_ts,
    first_contact_message_ts (daily_group one_reply chat_1_monday) = Some contact_ts
    ∧ first_agent_message_ts (daily_group one_reply chat_1_monday) = Some agent_ts
    ∧ contact_ts < agent_ts
    ∧ DATE UTC contact_ts = day_activity_date chat_1_monday
    ∧ DATE UTC agent_ts = day_activity_date chat_1_monday
    ∧ 0 <= 300 <= TIMESTAMP_DIFF_SECOND agent_ts contact_ts
    ∧ 300 < 86400.
Proof.
  apply (first_response_within_the_day UdfUtc one_reply nine_to_six_every_day
           chat_1_monday 300).
  vm_compute. reflexivity.
Defined.

(** ** calculateSummaryStatistics *)

Lemma foldl_add_SUM (xs : list Z) (a : Z) : foldl Z.add a xs = a + SUM xs.
Proof.
  revert a. induction xs as [|x xs IH]; intros a; simpl; [lia|].
  rewrite IH. fold (SUM xs). lia.
Qed.

Lemma foldl_min_spec (xs : list Z) (a : Z) :
  foldl Z.min a xs <= a ∧ ∀ x, x ∈ xs → foldl Z.min a xs <= x.
Proof.
  revert a. induction xs as [|y xs IH]; intros a; simpl.
  - split; [lia|]. intros x Hx. by apply elem_of_nil in Hx.
  - destruct (IH (Z.min a y)) as [Ha Hxs]. split; [lia|].
    intros x [->|Hx]%elem_of_cons; [lia|by apply Hxs].
Qed.

Lemma foldl_max_spec (xs : list Z) (a : Z) :
  a <= foldl Z.max a xs ∧ ∀ x, x ∈ xs → x <= foldl Z.max a xs.
Proof.
  revert a. induction xs as [|y xs IH]; intros a; simpl.
  - split; [lia|]. intros x Hx. by apply elem_of_nil in Hx.
  - destruct (IH (Z.max a y)) as [Ha Hxs]. split; [lia|].
    intros x [->|Hx]%elem_of_cons; [lia|by apply Hxs].
Qed.

(** [Math.round] of a number between two whole numbers lies between them. *)
Lemma Math_round_lower (lo : Z) (q : Q) : (inject_Z lo <= q)%Q → lo <= Math_round q.
Proof.
  intros Hlo. unfold Math_round. rewrite <- (Qfloor_Z lo).
  apply Qfloor_resp_le. rewrite <- (Qplus_0_r (inject_Z lo)).
  by apply Qplus_le_compat.
Qed.

Lemma Math_round_upper (hi : Z) (q : Q) : (q <= inject_Z hi)%Q → Math_round q <= hi.
Proof.
  intros Hhi. unfold Math_round.
  assert (Hfloor : Qfloor (inject_Z hi + (1 # 2)) = hi).
  { unfold Qfloor, Qplus, inject_Z. simpl.
    change (Z.pos (1 * 2)) with 2. change (1 * 1) with 1.
    rewrite Z.div_add_l by done. change (1 `div` 2) with 0. lia. }
  rewrite <- Hfloor. apply Qfloor_resp_le.
  apply Qplus_le_compat; [done|apply Qle_refl].
Qed.

(** X24: in [calculateSummaryStatistics] the rounded average of the
    records lies between their minimum and their maximum (all three are 0
    without a record). *)
Theorem summary_average_between_min_and_max (responseTimes : list Z) :
  minResponseTime responseTimes <= avgResponseTime responseTimes
  <= maxResponseTime responseTimes.
Proof.
  destruct responseTimes as [|rt rest]; [done|].
  unfold minResponseTime, maxResponseTime, avgResponseTime.
  rewrite foldl_add_SUM, Z.add_0_l.
  destruct (foldl_min_spec rest rt) as [Hmin Hmins].
  destruct (foldl_max_spec rest rt) as [Hmax Hmaxs].
  split.
  - apply Math_round_lower, mean_lower; [done|].
    intros x [->|Hx]%elem_of_cons; [done|by apply Hmins].
  - apply Math_round_upper, mean_upper; [done|].
    intros x [->|Hx]%elem_of_cons; [done|by apply Hmaxs].
Qed.
